(** * ChatGateway: the room / membership registry of piggy-server

    A shallow embedding of [src/chat/chat.gateway.ts].  The gateway keeps two
    JavaScript [Map]s ([rooms] and [users]) and answers socket.io events; every
    handler is modelled as a function from the gateway's state to the new state
    and the list of effects (socket.io calls and console lines) it performs, in
    the order the source performs them. *)

From Stdlib Require Import String Ascii List Bool ZArith Lia.
From Stdlib Require Import DecimalString DecimalZ FinFun.
Import ListNotations.
Local Open Scope string_scope.

(** ** JavaScript [Map] with string keys

    A [Map] iterates in insertion order, [set] on a present key replaces the
    value in place, [set] on an absent key appends, [delete] removes the entry.
    The entries are kept as an association list in iteration order; a [Map]
    never holds a key twice, which is [JSMap.wf]. *)

Module JSMap.
Section Ops.
Context {V : Type}.

Definition t := list (string * V).

Definition empty : t := [].

Fixpoint get (m : t) (k : string) : option V :=
  match m with
  | [] => None
  | (k', v) :: m' => if String.eqb k' k then Some v else get m' k
  end.

Definition has (m : t) (k : string) : bool :=
  match get m k with Some _ => true | None => false end.

Fixpoint set (m : t) (k : string) (v : V) : t :=
  match m with
  | [] => [(k, v)]
  | (k', v') :: m' =>
      if String.eqb k' k then (k, v) :: m' else (k', v') :: set m' k v
  end.

Fixpoint delete (m : t) (k : string) : t :=
  match m with
  | [] => []
  | (k', v') :: m' =>
      if String.eqb k' k then m' else (k', v') :: delete m' k
  end.

Definition keys (m : t) : list string := map fst m.

Definition values (m : t) : list V := map snd m.

Definition wf (m : t) : Prop := NoDup (keys m).
End Ops.
Arguments t : clear implicits.
End JSMap.

(** ** The data of the gateway *)

Module Room.
Record t := mk { roomId : string; roomName : string }.
End Room.

Module User.
Record t := mk { userId : string; userName : string; roomId : string }.
End User.

Module GroupMessage.
Record t := mk { userName : string; roomId : string; message : string }.
End GroupMessage.

(** The values handed to [emit]: strings, object literals and arrays. *)
#[local] Unset Elimination Schemes.
Inductive JSValue :=
| JStr (s : string)
| JArr (items : list JSValue)
| JObj (fields : list (string * JSValue)).
#[local] Set Elimination Schemes.

Definition roomObj (r : Room.t) : JSValue :=
  JObj [("roomId", JStr (Room.roomId r)); ("roomName", JStr (Room.roomName r))].

Definition userObj (u : User.t) : JSValue :=
  JObj [("userId", JStr (User.userId u));
        ("userName", JStr (User.userName u));
        ("roomId", JStr (User.roomId u))].

Definition roomsArr (rs : list Room.t) : JSValue := JArr (map roomObj rs).
Definition usersArr (us : list User.t) : JSValue := JArr (map userObj us).

(** What a handler does to the outside world.  [client] is [client.id], the
    connection identity of the socket the call is made on. *)
Inductive Effect :=
| ClientJoin (client room : string)
    (* client.join(room) *)
| ClientEmit (client event : string) (payload : JSValue)
    (* client.emit(event, payload): to that connection only *)
| ClientToEmit (client room event : string) (payload : JSValue)
    (* client.to(room).emit(event, payload): the room's group but the sender *)
| ServerEmit (event : string) (payload : JSValue)
    (* this.server.emit(event, payload): every connected client *)
| ServerToEmit (room event : string) (payload : JSValue)
    (* this.server.to(room).emit(event, payload): the whole group of the room *)
| ConsoleLog (line : string)
| ConsoleLogRooms (m : JSMap.t Room.t).

(** The gateway object.  [groupMessages] is declared in the class but never
    assigned nor read, so it carries no state. *)
Record ChatGateway := mkGateway {
  rooms : JSMap.t Room.t;
  users : JSMap.t (list User.t)
}.

(** [constructor()] *)
Definition constructor : ChatGateway :=
  {| rooms := JSMap.empty; users := JSMap.empty |}.

(** ** Room identities

    [`room${Date.now()}`]: the clock reading is an integer number of
    milliseconds, printed in decimal (with a leading minus sign below the
    epoch).  A time value stays below 8.64e15 in magnitude, far from the
    1e21 at which a JavaScript number is printed with an exponent. *)
Definition numberToString (n : Z) : string :=
  NilEmpty.string_of_int (Z.to_int n).

Definition newRoomId (now : Z) : string := "room" ++ numberToString now.

(** ** The handlers *)

(** [createRoom(data, client)], with [now] the value [Date.now()] returns. *)
Definition createRoom (roomName client : string) (now : Z) (g : ChatGateway)
  : ChatGateway * list Effect :=
  let roomId := newRoomId now in
  let room := Room.mk roomId roomName in
  let rooms' := JSMap.set (rooms g) roomId room in
  ({| rooms := rooms'; users := users g |},
   [ ClientJoin client roomId;
     ClientEmit client "roomCreated" (roomObj room);
     ServerEmit "rooms" (roomsArr (JSMap.values rooms'));
     ConsoleLog ("Room created: " ++ roomId ++ " (" ++ roomName ++ ")") ]).

(** [this.users.get(roomId) || []] *)
Definition usersOrEmpty (g : ChatGateway) (roomId : string) : list User.t :=
  match JSMap.get (users g) roomId with
  | Some us => us
  | None => []
  end.

(** [joinRoom(data, client)].  [push] appends to the array that is then stored
    again under [roomId]; the [totalUsers] payload is that same array. *)
Definition joinRoom (userName roomId client : string) (g : ChatGateway)
  : ChatGateway * list Effect :=
  if negb (JSMap.has (rooms g) roomId) then
    (g, [ClientEmit client "error" (JStr ("Room " ++ roomId ++ " does not exist"))])
  else
    let usersInRoom := usersOrEmpty g roomId in
    let userExists :=
      existsb (fun user => String.eqb (User.userName user) userName) usersInRoom in
    if userExists then
      (g, [ClientEmit client "error"
             (JStr ("User " ++ userName ++ " already exists in room " ++ roomId))])
    else
      let user := User.mk client userName roomId in
      let usersInRoom := (usersInRoom ++ [user])%list in
      ({| rooms := rooms g; users := JSMap.set (users g) roomId usersInRoom |},
       [ ClientJoin client roomId;
         ClientEmit client "joinedRoom" (JStr ("Successfully joined room: " ++ roomId));
         ClientToEmit client roomId "userJoined" (JStr (userName ++ " has joined the room"));
         ServerToEmit roomId "totalUsers" (usersArr usersInRoom);
         ConsoleLog ("User " ++ userName ++ " (" ++ client ++ ") joined room " ++ roomId) ]).

(** [deleteRoom(data, client)] *)
Definition deleteRoom (roomId client : string) (g : ChatGateway)
  : ChatGateway * list Effect :=
  if negb (JSMap.has (rooms g) roomId) then
    (g, [ClientEmit client "error" (JStr ("Room " ++ roomId ++ " does not exist"))])
  else
    let rooms' := JSMap.delete (rooms g) roomId in
    let users' := JSMap.delete (users g) roomId in
    ({| rooms := rooms'; users := users' |},
     [ ServerToEmit roomId "roomDeleted"
         (JObj [("message", JStr ("Room " ++ roomId ++ " has been deleted."))]);
       ServerEmit "rooms" (roomsArr (JSMap.values rooms'));
       ConsoleLog ("Room deleted: " ++ roomId) ]).

(** [sendMessage(data, client)] *)
Definition sendMessage (data : GroupMessage.t) (client : string) (g : ChatGateway)
  : ChatGateway * list Effect :=
  let roomId := GroupMessage.roomId data in
  let message := GroupMessage.message data in
  let userName := GroupMessage.userName data in
  if negb (JSMap.has (rooms g) roomId) then
    (g, [ClientEmit client "error" (JStr ("Room " ++ roomId ++ " does not exist"))])
  else
    (g,
     [ ServerToEmit roomId "newMessage"
         (JObj [("userId", JStr userName); ("message", JStr message)]);
       ConsoleLog ("Message sent to room " ++ roomId ++ ": " ++ message) ]).

(** [(user) => user.userId !== client.id] *)
Definition notClient (client : string) (user : User.t) : bool :=
  negb (String.eqb (User.userId user) client).

(** [leaveRoom(data, client)].  [filter] builds a new array, which is stored;
    [usersInRoom], the array read from the map, is what [totalUsers] carries. *)
Definition leaveRoom (roomId userName client : string) (g : ChatGateway)
  : ChatGateway * list Effect :=
  if negb (JSMap.has (rooms g) roomId) then
    (g, [ClientEmit client "error" (JStr ("Room " ++ roomId ++ " does not exist"))])
  else
    let usersInRoom := usersOrEmpty g roomId in
    let updatedUsers := filter (notClient client) usersInRoom in
    ({| rooms := rooms g; users := JSMap.set (users g) roomId updatedUsers |},
     [ ClientToEmit client roomId "userLeft" (JStr (userName ++ " has left the room"));
       ServerToEmit roomId "totalUsers" (usersArr usersInRoom);
       ConsoleLog ("User " ++ userName ++ " (" ++ client ++ ") left room " ++ roomId) ]).

(** The callback of [this.users.forEach] in [handleDisconnect], run on one
    entry [(roomId, usersInRoom)] of the map. *)
Definition sweepEntry (client : string)
  (acc : JSMap.t (list User.t) * list Effect) (entry : string * list User.t)
  : JSMap.t (list User.t) * list Effect :=
  let '(usersMap, out) := acc in
  let '(roomId, usersInRoom) := entry in
  let updatedUsers := filter (notClient client) usersInRoom in
  if (0 <? length updatedUsers)%nat then
    (JSMap.set usersMap roomId updatedUsers,
     (out ++ [ServerToEmit roomId "totalUsers" (usersArr updatedUsers)])%list)
  else
    (JSMap.delete usersMap roomId, out).

(** [handleDisconnect(client)].  [forEach] visits the entries in insertion
    order; the callback only replaces or deletes the entry it is visiting, so
    the entries visited are those the map held when the loop started. *)
Definition handleDisconnect (client : string) (g : ChatGateway)
  : ChatGateway * list Effect :=
  let '(users', out) :=
    fold_left (sweepEntry client) (users g)
      (users g, [ConsoleLog ("Client disconnected: " ++ client)]) in
  ({| rooms := rooms g; users := users' |}, out).

(** [triggerFetchAvailableRooms()] *)
Definition triggerFetchAvailableRooms (g : ChatGateway) : ChatGateway * list Effect :=
  (g, [ ConsoleLogRooms (rooms g);
        ServerEmit "getRooms" (roomsArr (JSMap.values (rooms g))) ]).

(** ** Requests and runs

    One inbound event (or the transport's disconnect notice) together with the
    connection it arrives on.  [CreateRoom] carries the clock reading the
    handler will take. *)
Inductive Request :=
| CreateRoom (roomName : string) (now : Z)
| JoinRoom (userName roomId : string)
| DeleteRoom (roomId : string)
| SendMessage (data : GroupMessage.t)
| LeaveRoom (roomId userName : string)
| Disconnect
| FetchRooms.

Definition handle (client : string) (req : Request) (g : ChatGateway)
  : ChatGateway * list Effect :=
  match req with
  | CreateRoom roomName now => createRoom roomName client now g
  | JoinRoom userName roomId => joinRoom userName roomId client g
  | DeleteRoom roomId => deleteRoom roomId client g
  | SendMessage data => sendMessage data client g
  | LeaveRoom roomId userName => leaveRoom roomId userName client g
  | Disconnect => handleDisconnect client g
  | FetchRooms => triggerFetchAvailableRooms g
  end.

(** Events are handled one at a time, each to completion. *)
Fixpoint run (reqs : list (string * Request)) (g : ChatGateway)
  : ChatGateway * list Effect :=
  match reqs with
  | [] => (g, [])
  | (client, req) :: rest =>
      let '(g1, out1) := handle client req g in
      let '(g2, out2) := run rest g1 in
      (g2, (out1 ++ out2)%list)
  end.

Inductive reachable : ChatGateway -> Prop :=
| reachable_init : reachable constructor
| reachable_step g client req :
    reachable g -> reachable (fst (handle client req g)).

(** ** Reading the state and the effects *)

(** [userExists] of [joinRoom]: some member of the room has the name. *)
Definition nameInRoom (g : ChatGateway) (roomId userName : string) : bool :=
  existsb (fun user => String.eqb (User.userName user) userName)
          (usersOrEmpty g roomId).

(** The requests the handlers reject: a [roomId] that [rooms] does not hold
    (join, leave, send, delete), and a join under a [userName] that a member
    of the room carries. *)
Definition fails (g : ChatGateway) (req : Request) : bool :=
  match req with
  | JoinRoom userName roomId =>
      negb (JSMap.has (rooms g) roomId) || nameInRoom g roomId userName
  | LeaveRoom roomId _ => negb (JSMap.has (rooms g) roomId)
  | SendMessage data => negb (JSMap.has (rooms g) (GroupMessage.roomId data))
  | DeleteRoom roomId => negb (JSMap.has (rooms g) roomId)
  | CreateRoom _ _ | Disconnect | FetchRooms => false
  end.

(** The [emit] calls among the effects (no [join], no console line). *)
Definition isEmit (e : Effect) : bool :=
  match e with
  | ClientEmit _ _ _ | ClientToEmit _ _ _ _ | ServerEmit _ _ | ServerToEmit _ _ _ => true
  | ClientJoin _ _ | ConsoleLog _ | ConsoleLogRooms _ => false
  end.

Definition emits (out : list Effect) : list Effect := filter isEmit out.

(** The payloads of the [event]s sent with [this.server.to(room)]. *)
Definition groupBroadcasts (room event : string) (out : list Effect) : list JSValue :=
  flat_map (fun e =>
              match e with
              | ServerToEmit r ev payload =>
                  if String.eqb r room && String.eqb ev event then [payload] else []
              | _ => []
              end) out.

(** How many members of a list belong to a connection. *)
Definition entriesOf (client : string) (us : list User.t) : nat :=
  length (filter (fun user => String.eqb (User.userId user) client) us).

(** A small history used in the examples below: connection [A] creates the
    room at clock reading 1700000000000 and joins it as "alice", connection
    [B] joins as "bob", and [A] joins once more as "al". *)
Definition lobbyId : string := "room1700000000000".

Definition lobbyHistory : list (string * Request) :=
  [ ("A", CreateRoom "Lobby" 1700000000000);
    ("A", JoinRoom "alice" lobbyId);
    ("B", JoinRoom "bob" lobbyId);
    ("A", JoinRoom "al" lobbyId) ].

Definition lobby : ChatGateway := fst (run lobbyHistory constructor).

(** The number of members one [leaveRoom] call takes out of a room. *)
Definition removedByLeave (g : ChatGateway) (roomId userName client : string) : nat :=
  length (usersOrEmpty g roomId)
  - length (usersOrEmpty (fst (leaveRoom roomId userName client g)) roomId).

(** A second history, with two rooms: [A] is alone in the first and shares
    the second with [B]. *)
Definition annexId : string := "room1700000000001".

Definition twoRoomsHistory : list (string * Request) :=
  [ ("A", CreateRoom "Lobby" 1700000000000);
    ("B", CreateRoom "Annex" 1700000000001);
    ("A", JoinRoom "alice" lobbyId);
    ("A", JoinRoom "alice" annexId);
    ("B", JoinRoom "bob" annexId) ].

Definition twoRooms : ChatGateway := fst (run twoRoomsHistory constructor).

(** What the loop of [handleDisconnect] leaves in [users], and what it sends,
    written entry by entry. *)
Definition sweptUsers (client : string) (m : JSMap.t (list User.t))
  : JSMap.t (list User.t) :=
  flat_map (fun '(roomId, us) =>
              let kept := filter (notClient client) us in
              if (0 <? length kept)%nat then [(roomId, kept)] else []) m.

Definition sweepBroadcasts (client : string) (m : JSMap.t (list User.t))
  : list Effect :=
  flat_map (fun '(roomId, us) =>
              let kept := filter (notClient client) us in
              if (0 <? length kept)%nat
              then [ServerToEmit roomId "totalUsers" (usersArr kept)] else []) m.

(** No key twice in either map. *)
Definition wfGateway (g : ChatGateway) : Prop :=
  JSMap.wf (rooms g) /\ JSMap.wf (users g).

(** Within each member list, no display name twice. *)
Definition uniqueNames (g : ChatGateway) : Prop :=
  forall roomId us, In (roomId, us) (users g) -> NoDup (map User.userName us).

(** The room identities handed out, read off the [roomCreated] events: the
    [roomId] field of the room object sent to the creator. *)
Definition createdRoomIds (out : list Effect) : list string :=
  flat_map (fun e =>
              match e with
              | ClientEmit _ event (JObj ((key, JStr id) :: _)) =>
                  if String.eqb event "roomCreated" && String.eqb key "roomId"
                  then [id] else []
              | _ => []
              end) out.

(** The values [Date.now()] returned to the [createRoom] calls of a run. *)
Definition clockReadings (reqs : list (string * Request)) : list Z :=
  flat_map (fun '(_, req) =>
              match req with
              | CreateRoom _ now => [now]
              | _ => []
              end) reqs.

(** Two [createRoom] calls within the same millisecond. *)
Definition sameMillisecond : list (string * Request) :=
  [ ("A", CreateRoom "Lobby" 1700000000000);
    ("B", CreateRoom "Annex" 1700000000000) ].

(** The [error] events among the effects. *)
Definition errorEvents (out : list Effect) : list Effect :=
  filter (fun e =>
            match e with
            | ClientEmit _ event _ => String.eqb event "error"
            | _ => false
            end) out.

(** The connection an effect names as its socket, when it names one. *)
Definition socketOf (e : Effect) : option string :=
  match e with
  | ClientJoin client _ | ClientEmit client _ _ | ClientToEmit client _ _ _ =>
      Some client
  | ServerEmit _ _ | ServerToEmit _ _ _ | ConsoleLog _ | ConsoleLogRooms _ => None
  end.

(** Every room is stored under its own identity, and that identity is one
    [createRoom] makes. *)
Definition roomsKeyed (g : ChatGateway) : Prop :=
  forall key room, In (key, room) (rooms g) ->
    Room.roomId room = key /\ exists now, key = newRoomId now.

(** Every member is stored under the room its [roomId] field names. *)
Definition membersFiled (g : ChatGateway) : Prop :=
  forall key us user, In (key, us) (users g) -> In user us ->
    User.roomId user = key.

(** Every room with a member list is a room of [rooms]. *)
Definition listsHaveRooms (g : ChatGateway) : Prop :=
  forall key, In key (JSMap.keys (users g)) -> In key (JSMap.keys (rooms g)).

(** * Facts about [JSMap] *)

Module JSMapFacts.
Import JSMap.
Local Open Scope list_scope.
Section Facts.
Context {V : Type}.
Implicit Types (m : JSMap.t V) (k : string) (v : V).

Lemma get_set_eq m k v : get (set m k v) k = Some v.
Proof.
  induction m as [|[k' v'] m IH]; simpl.
  - now rewrite String.eqb_refl.
  - destruct (String.eqb k' k) eqn:E; simpl.
    + now rewrite String.eqb_refl.
    + now rewrite E.
Qed.

Lemma get_set_ne m k k0 v : k <> k0 -> get (set m k v) k0 = get m k0.
Proof.
  intros Hne. induction m as [|[k' v'] m IH]; simpl.
  - destruct (String.eqb_spec k k0); [contradiction | reflexivity].
  - destruct (String.eqb_spec k' k) as [->|Hk]; simpl.
    + destruct (String.eqb_spec k k0); [contradiction | reflexivity].
    + now rewrite IH.
Qed.

Lemma get_None_notin m k : get m k = None <-> ~ In k (keys m).
Proof.
  induction m as [|[k' v'] m IH]; simpl.
  - tauto.
  - destruct (String.eqb_spec k' k) as [->|Hk].
    + split; [discriminate | intros H; exfalso; apply H; now left].
    + rewrite IH. tauto.
Qed.

Lemma get_Some_In m k v : get m k = Some v -> In (k, v) m.
Proof.
  induction m as [|[k' v'] m IH]; simpl; [discriminate|].
  destruct (String.eqb_spec k' k) as [->|Hk].
  - intros [= ->]. now left.
  - intros H. right. now apply IH.
Qed.

Lemma In_get_Some m k v : wf m -> In (k, v) m -> get m k = Some v.
Proof.
  unfold wf. induction m as [|[k' v'] m IH]; simpl; [tauto|].
  intros Hnd [[= -> ->]|Hin].
  - now rewrite String.eqb_refl.
  - inversion Hnd as [|? ? Hnotin Hnd']; subst.
    destruct (String.eqb_spec k' k) as [->|Hk].
    + exfalso. apply Hnotin. now apply (in_map fst) in Hin.
    + now apply IH.
Qed.

Lemma keys_delete_incl m k k0 : In k0 (keys (delete m k)) -> In k0 (keys m).
Proof.
  induction m as [|[k' v'] m IH]; simpl; [tauto|].
  destruct (String.eqb k' k); simpl; [tauto|].
  intros [H|H]; [now left | right; now apply IH].
Qed.

Lemma get_delete_eq m k : wf m -> get (delete m k) k = None.
Proof.
  unfold wf. induction m as [|[k' v'] m IH]; simpl; [reflexivity|].
  intros Hnd. inversion Hnd as [|? ? Hnotin Hnd']; subst.
  destruct (String.eqb_spec k' k) as [->|Hk]; simpl.
  - now apply get_None_notin.
  - destruct (String.eqb_spec k' k); [contradiction | now apply IH].
Qed.

Lemma get_delete_ne m k k0 : k <> k0 -> get (delete m k) k0 = get m k0.
Proof.
  intros Hne. induction m as [|[k' v'] m IH]; simpl; [reflexivity|].
  destruct (String.eqb_spec k' k) as [->|Hk]; simpl.
  - destruct (String.eqb_spec k k0); [contradiction | reflexivity].
  - now rewrite IH.
Qed.

Lemma keys_set m k v k0 : In k0 (keys (set m k v)) <-> k0 = k \/ In k0 (keys m).
Proof.
  induction m as [|[k' v'] m IH]; simpl.
  - intuition congruence.
  - destruct (String.eqb_spec k' k) as [->|Hk]; simpl.
    + intuition congruence.
    + rewrite IH. intuition congruence.
Qed.

Lemma wf_set m k v : wf m -> wf (set m k v).
Proof.
  unfold wf. induction m as [|[k' v'] m IH]; simpl; intros Hnd.
  - constructor; [simpl; tauto | constructor].
  - inversion Hnd as [|? ? Hnotin Hnd']; subst.
    destruct (String.eqb_spec k' k) as [->|Hk]; simpl.
    + now constructor.
    + constructor; [|now apply IH].
      intros Hin. apply keys_set in Hin. destruct Hin; [congruence | contradiction].
Qed.

Lemma wf_delete m k : wf m -> wf (delete m k).
Proof.
  unfold wf. induction m as [|[k' v'] m IH]; simpl; intros Hnd; [constructor|].
  inversion Hnd as [|? ? Hnotin Hnd']; subst.
  destruct (String.eqb k' k); simpl; [assumption|].
  constructor; [|now apply IH].
  intros Hin. apply Hnotin. now apply keys_delete_incl in Hin.
Qed.

Lemma In_set m k v e : In e (set m k v) -> e = (k, v) \/ In e m.
Proof.
  induction m as [|[k' v'] m IH]; simpl.
  - intros [H|[]]. left; congruence.
  - destruct (String.eqb k' k); simpl.
    + intros [H|H]; [left; congruence | right; now right].
    + intros [H|H]; [right; now left | destruct (IH H); tauto].
Qed.

Lemma In_delete m k e : In e (delete m k) -> In e m.
Proof.
  induction m as [|[k' v'] m IH]; simpl; [tauto|].
  destruct (String.eqb k' k); simpl; [tauto|].
  intros [H|H]; [now left | right; now apply IH].
Qed.

(** Replacing or deleting the entry at the front of the part of the map not
    yet visited, as [forEach] does in [handleDisconnect]. *)
Lemma set_app_notin (done rest : JSMap.t V) k v :
  ~ In k (keys done) ->
  set (done ++ rest) k v = done ++ set rest k v.
Proof.
  induction done as [|[k' v'] done IH]; simpl; [reflexivity|].
  intros Hnotin. destruct (String.eqb_spec k' k) as [->|Hk].
  - exfalso. apply Hnotin. now left.
  - rewrite IH; [reflexivity | tauto].
Qed.

Lemma delete_app_notin (done rest : JSMap.t V) k :
  ~ In k (keys done) ->
  delete (done ++ rest) k = done ++ delete rest k.
Proof.
  induction done as [|[k' v'] done IH]; simpl; [reflexivity|].
  intros Hnotin. destruct (String.eqb_spec k' k) as [->|Hk].
  - exfalso. apply Hnotin. now left.
  - rewrite IH; [reflexivity | tauto].
Qed.
End Facts.
End JSMapFacts.

Example lobby_members :
  users lobby =
  [ (lobbyId, [ User.mk "A" "alice" lobbyId;
                User.mk "B" "bob" lobbyId;
                User.mk "A" "al" lobbyId ]) ].
Proof. reflexivity. Qed.

Example lobby_rooms : rooms lobby = [ (lobbyId, Room.mk lobbyId "Lobby") ].
Proof. reflexivity. Qed.

(** * The failing paths *)

(** C2. A request that fails (join, leave, send or delete on a [roomId] absent
    from [rooms], or a join under a display name a member of the room already
    has) leaves the gateway as it was, both maps included, and its only effect
    is one [error] event emitted to the requesting connection. *)
Theorem failed_request_only_private_error
  (g : ChatGateway) (client : string) (req : Request) :
  fails g req = true ->
  exists text,
    handle client req g = (g, [ClientEmit client "error" (JStr text)]).
Proof.
  destruct req as [roomName now|userName roomId|roomId|data|roomId userName| |];
    simpl; try discriminate.
  - unfold joinRoom, nameInRoom. intros H.
    destruct (negb (JSMap.has (rooms g) roomId)); [eauto|].
    simpl in H. rewrite H. eauto.
  - unfold deleteRoom. intros ->. eauto.
  - unfold sendMessage. intros ->. eauto.
  - unfold leaveRoom. intros ->. eauto.
Qed.

Lemma failed_request_only_private_error_witness :
  exists text,
    handle "C" (JoinRoom "bob" lobbyId) lobby
    = (lobby, [ClientEmit "C" "error" (JStr text)]).
Proof.
  apply failed_request_only_private_error. reflexivity.
Defined.

(** * Joining *)

Lemma usersOrEmpty_set (rs : JSMap.t Room.t) (m : JSMap.t (list User.t))
  (roomId : string) (us : list User.t) :
  usersOrEmpty {| rooms := rs; users := JSMap.set m roomId us |} roomId = us.
Proof. unfold usersOrEmpty. simpl. now rewrite JSMapFacts.get_set_eq. Qed.

(** C4. When [joinRoom] succeeds (the room is in [rooms] and no member of it
    has the display name), the member list of the room is one longer than
    before and holds a member whose [userId] is the requester's connection. *)
Theorem join_success_adds_one_member
  (g : ChatGateway) (userName roomId client : string) :
  JSMap.has (rooms g) roomId = true ->
  nameInRoom g roomId userName = false ->
  let g' := fst (joinRoom userName roomId client g) in
  length (usersOrEmpty g' roomId) = S (length (usersOrEmpty g roomId)) /\
  exists user, In user (usersOrEmpty g' roomId) /\ User.userId user = client.
Proof.
  intros Hroom Hname. unfold joinRoom. rewrite Hroom. simpl.
  unfold nameInRoom in Hname. rewrite Hname. simpl.
  rewrite usersOrEmpty_set. split.
  - rewrite length_app. simpl. lia.
  - exists (User.mk client userName roomId). split; [|reflexivity].
    apply in_or_app. right. now left.
Qed.

Lemma join_success_adds_one_member_witness :
  let g' := fst (joinRoom "carol" lobbyId "C" lobby) in
  length (usersOrEmpty g' lobbyId) = S (length (usersOrEmpty lobby lobbyId)) /\
  exists user, In user (usersOrEmpty g' lobbyId) /\ User.userId user = "C".
Proof.
  apply join_success_adds_one_member; reflexivity.
Defined.

Lemma joinRoom_success (g : ChatGateway) (userName roomId client : string) :
  JSMap.has (rooms g) roomId = true ->
  nameInRoom g roomId userName = false ->
  fst (joinRoom userName roomId client g)
  = {| rooms := rooms g;
       users := JSMap.set (users g) roomId
                  (usersOrEmpty g roomId ++ [User.mk client userName roomId])%list |}.
Proof.
  intros Hroom Hname. unfold joinRoom. rewrite Hroom. simpl.
  unfold nameInRoom in Hname. now rewrite Hname.
Qed.

Lemma run_cons_fst (client : string) (req : Request)
  (rest : list (string * Request)) (g : ChatGateway) :
  fst (run ((client, req) :: rest) g) = fst (run rest (fst (handle client req g))).
Proof.
  simpl. destruct (handle client req g) as [g1 out1].
  simpl. now destruct (run rest g1).
Qed.

Lemma run_reachable (reqs : list (string * Request)) (g : ChatGateway) :
  reachable g -> reachable (fst (run reqs g)).
Proof.
  revert g. induction reqs as [|[client req] rest IH]; intros g Hg.
  - exact Hg.
  - rewrite run_cons_fst. apply IH. now apply reachable_step.
Qed.

(** C10. One connection can hold two entries in the same room: [joinRoom]
    compares display names only, so a connection that creates a room and
    joins it under two different names ends with two members carrying its
    [userId] in that room's list. *)
Theorem same_connection_joins_twice
  (client roomName name1 name2 : string) (now : Z) :
  name1 <> name2 ->
  let roomId := newRoomId now in
  let g := fst (run [ (client, CreateRoom roomName now);
                      (client, JoinRoom name1 roomId);
                      (client, JoinRoom name2 roomId) ] constructor) in
  JSMap.get (users g) roomId
  = Some [ User.mk client name1 roomId; User.mk client name2 roomId ] /\
  entriesOf client (usersOrEmpty g roomId) = 2.
Proof.
  intros Hne roomId.
  set (rs := [(roomId, Room.mk roomId roomName)]).
  set (g1 := {| rooms := rs; users := [] |}).
  set (g2 := {| rooms := rs; users := [(roomId, [User.mk client name1 roomId])] |}).
  set (g3 := {| rooms := rs;
                users := [(roomId, [ User.mk client name1 roomId;
                                     User.mk client name2 roomId ])] |}).
  assert (Hrs : forall us, JSMap.has (rooms {| rooms := rs; users := us |}) roomId = true).
  { intros us. unfold JSMap.has, rs. simpl. now rewrite String.eqb_refl. }
  assert (H2 : fst (joinRoom name1 roomId client g1) = g2).
  { rewrite joinRoom_success; [|apply Hrs|reflexivity]. reflexivity. }
  assert (H3 : fst (joinRoom name2 roomId client g2) = g3).
  { rewrite joinRoom_success; [|apply Hrs|].
    - unfold g2, g3, usersOrEmpty. simpl. now rewrite String.eqb_refl.
    - unfold nameInRoom, g2, usersOrEmpty. simpl. rewrite String.eqb_refl. simpl.
      destruct (String.eqb_spec name1 name2); [contradiction | reflexivity]. }
  assert (Hg : fst (run [ (client, CreateRoom roomName now);
                          (client, JoinRoom name1 roomId);
                          (client, JoinRoom name2 roomId) ] constructor) = g3).
  { rewrite !run_cons_fst. cbn [handle].
    change (fst (createRoom roomName client now constructor)) with g1.
    now rewrite H2, H3. }
  cbv zeta. rewrite Hg. unfold g3, usersOrEmpty, entriesOf. simpl.
  rewrite !String.eqb_refl. simpl. now rewrite !String.eqb_refl.
Qed.

Lemma same_connection_joins_twice_witness :
  let g := fst (run [ ("A", CreateRoom "Lobby" 1700000000000);
                      ("A", JoinRoom "alice" lobbyId);
                      ("A", JoinRoom "al" lobbyId) ] constructor) in
  JSMap.get (users g) lobbyId
  = Some [ User.mk "A" "alice" lobbyId; User.mk "A" "al" lobbyId ] /\
  entriesOf "A" (usersOrEmpty g lobbyId) = 2.
Proof.
  apply (same_connection_joins_twice "A" "Lobby" "alice" "al" 1700000000000).
  discriminate.
Defined.

(** * Leaving *)

Lemma leaveRoom_success (g : ChatGateway) (roomId userName client : string) :
  JSMap.has (rooms g) roomId = true ->
  leaveRoom roomId userName client g
  = ({| rooms := rooms g;
        users := JSMap.set (users g) roomId
                   (filter (notClient client) (usersOrEmpty g roomId)) |},
     [ ClientToEmit client roomId "userLeft" (JStr (userName ++ " has left the room"));
       ServerToEmit roomId "totalUsers" (usersArr (usersOrEmpty g roomId));
       ConsoleLog ("User " ++ userName ++ " (" ++ client ++ ") left room " ++ roomId) ]).
Proof. intros Hroom. unfold leaveRoom. now rewrite Hroom. Qed.

Lemma filter_split_length {A} (p : A -> bool) (l : list A) :
  length l = (length (filter p l) + length (filter (fun x => negb (p x)) l))%nat.
Proof.
  induction l as [|x l IH]; simpl; [reflexivity|].
  destruct (p x); simpl; lia.
Qed.

(** C5, as the code has it. [leaveRoom] on a room of [rooms] stores the
    member list without the members whose [userId] is the requester's
    connection: every such member goes, however many there are, and every
    other member stays, in order.  The number removed is the number of entries
    the connection had, so it is at most one when the connection has at most
    one entry in the room. *)
Theorem leave_removes_requester_entries
  (g : ChatGateway) (roomId userName client : string) :
  JSMap.has (rooms g) roomId = true ->
  let before := usersOrEmpty g roomId in
  let after := usersOrEmpty (fst (leaveRoom roomId userName client g)) roomId in
  after = filter (notClient client) before /\
  (forall user, In user after <-> In user before /\ User.userId user <> client) /\
  removedByLeave g roomId userName client = entriesOf client before /\
  (entriesOf client before <= 1 -> removedByLeave g roomId userName client <= 1).
Proof.
  intros Hroom before after.
  assert (Hafter : after = filter (notClient client) before).
  { unfold after. rewrite leaveRoom_success by assumption. simpl.
    now rewrite usersOrEmpty_set. }
  assert (Hremoved : removedByLeave g roomId userName client = entriesOf client before).
  { unfold removedByLeave. fold before. fold after. rewrite Hafter.
    unfold entriesOf.
    rewrite (filter_split_length (notClient client) before) at 1.
    unfold notClient.
    rewrite (filter_ext (fun x => negb (negb (String.eqb (User.userId x) client)))
                        (fun x => String.eqb (User.userId x) client))
      by (intros x; apply negb_involutive).
    lia. }
  split; [assumption|]. split; [|split].
  - intros user. rewrite Hafter, filter_In. unfold notClient.
    destruct (String.eqb_spec (User.userId user) client); simpl;
      intuition congruence.
  - assumption.
  - rewrite Hremoved. trivial.
Qed.

Lemma leave_removes_requester_entries_witness :
  let before := usersOrEmpty lobby lobbyId in
  let after := usersOrEmpty (fst (leaveRoom lobbyId "bob" "B" lobby)) lobbyId in
  after = filter (notClient "B") before /\
  (forall user, In user after <-> In user before /\ User.userId user <> "B") /\
  removedByLeave lobby lobbyId "bob" "B" = entriesOf "B" before /\
  (entriesOf "B" before <= 1 -> removedByLeave lobby lobbyId "bob" "B" <= 1).
Proof.
  apply (leave_removes_requester_entries lobby lobbyId "bob" "B"). reflexivity.
Defined.

(** C5, as stated, fails: in [lobby], a state the handlers reach, connection
    [A] has two entries in the room, and one [leaveRoom] call by [A] removes
    both. *)
Lemma leave_removes_two_members :
  reachable lobby /\
  JSMap.has (rooms lobby) lobbyId = true /\
  usersOrEmpty lobby lobbyId
  = [ User.mk "A" "alice" lobbyId; User.mk "B" "bob" lobbyId;
      User.mk "A" "al" lobbyId ] /\
  usersOrEmpty (fst (leaveRoom lobbyId "alice" "A" lobby)) lobbyId
  = [ User.mk "B" "bob" lobbyId ] /\
  removedByLeave lobby lobbyId "alice" "A" = 2 /\
  ~ removedByLeave lobby lobbyId "alice" "A" <= 1.
Proof.
  split; [|repeat split; try reflexivity].
  - apply run_reachable, reachable_init.
  - change (removedByLeave lobby lobbyId "alice" "A") with 2. lia.
Qed.

(** C6. [leaveRoom] on a room of [rooms] sends to the room's group, as
    [totalUsers], the member list as it was before the removal, and only
    that one; what it stores in [users] is the list after the removal. *)
Theorem leave_broadcasts_list_before_removal
  (g : ChatGateway) (roomId userName client : string) :
  JSMap.has (rooms g) roomId = true ->
  let before := usersOrEmpty g roomId in
  let g' := fst (leaveRoom roomId userName client g) in
  let out := snd (leaveRoom roomId userName client g) in
  groupBroadcasts roomId "totalUsers" out = [usersArr before] /\
  JSMap.get (users g') roomId = Some (filter (notClient client) before).
Proof.
  intros Hroom. cbv zeta. rewrite leaveRoom_success by assumption. simpl.
  rewrite String.eqb_refl. simpl. split; [reflexivity|].
  apply JSMapFacts.get_set_eq.
Qed.

Lemma leave_broadcasts_list_before_removal_witness :
  groupBroadcasts lobbyId "totalUsers" (snd (leaveRoom lobbyId "bob" "B" lobby))
  = [usersArr [ User.mk "A" "alice" lobbyId; User.mk "B" "bob" lobbyId;
                User.mk "A" "al" lobbyId ]] /\
  JSMap.get (users (fst (leaveRoom lobbyId "bob" "B" lobby))) lobbyId
  = Some [ User.mk "A" "alice" lobbyId; User.mk "A" "al" lobbyId ].
Proof.
  apply (leave_broadcasts_list_before_removal lobby lobbyId "bob" "B").
  reflexivity.
Defined.

(** * Sending *)

(** C9, as the code has it. [sendMessage] on a room of [rooms] emits one
    event and no other: [newMessage], with [this.server.to(roomId)], hence to
    the whole group of the room without leaving the sender out.  The payload
    is the object [{ userId: userName, message }]: the display name travels
    under the key [userId].  Neither map changes. *)
Theorem send_broadcasts_one_message
  (g : ChatGateway) (data : GroupMessage.t) (client : string) :
  JSMap.has (rooms g) (GroupMessage.roomId data) = true ->
  fst (sendMessage data client g) = g /\
  emits (snd (sendMessage data client g))
  = [ ServerToEmit (GroupMessage.roomId data) "newMessage"
        (JObj [ ("userId", JStr (GroupMessage.userName data));
                ("message", JStr (GroupMessage.message data)) ]) ].
Proof.
  intros Hroom. unfold sendMessage. rewrite Hroom. simpl. now split.
Qed.

Lemma send_broadcasts_one_message_witness :
  fst (sendMessage (GroupMessage.mk "bob" lobbyId "hello") "B" lobby) = lobby /\
  emits (snd (sendMessage (GroupMessage.mk "bob" lobbyId "hello") "B" lobby))
  = [ ServerToEmit lobbyId "newMessage"
        (JObj [ ("userId", JStr "bob"); ("message", JStr "hello") ]) ].
Proof.
  apply (send_broadcasts_one_message lobby (GroupMessage.mk "bob" lobbyId "hello") "B").
  reflexivity.
Defined.

(** C9, as stated, fails on the payload: for "bob" sending "hello" to the
    room of [lobby], no effect of [sendMessage] carries the object
    [{ displayName: "bob", message: "hello" }]; the object sent has the key
    [userId] where the claim has [displayName]. *)
Lemma send_payload_has_no_displayName_key :
  let data := GroupMessage.mk "bob" lobbyId "hello" in
  let claimed := JObj [ ("displayName", JStr "bob"); ("message", JStr "hello") ] in
  JSMap.has (rooms lobby) lobbyId = true /\
  groupBroadcasts lobbyId "newMessage" (snd (sendMessage data "B" lobby))
  = [ JObj [ ("userId", JStr "bob"); ("message", JStr "hello") ] ] /\
  ~ In claimed (groupBroadcasts lobbyId "newMessage" (snd (sendMessage data "B" lobby))) /\
  (forall e, In e (snd (sendMessage data "B" lobby)) ->
             forall room event, e <> ServerToEmit room event claimed).
Proof.
  cbv zeta. split; [reflexivity|]. split; [reflexivity|]. split.
  - intros [H|[]]. discriminate H.
  - intros e [<-|[<-|[]]] room event; discriminate.
Qed.

(** * Deleting a room *)

(** C8. [deleteRoom] on a room of [rooms] first sends [roomDeleted] to the
    room's group, then deletes the room's entry from [rooms] and its member
    list from [users], within the one call: in the gateway it returns neither
    map holds [roomId], and every other room has in both maps what it had.
    The room list sent to all clients afterwards is the one without the
    room. *)
Theorem delete_clears_both_maps
  (g : ChatGateway) (roomId client : string) :
  JSMap.wf (rooms g) -> JSMap.wf (users g) ->
  JSMap.has (rooms g) roomId = true ->
  let g' := fst (deleteRoom roomId client g) in
  let out := snd (deleteRoom roomId client g) in
  JSMap.get (rooms g') roomId = None /\
  JSMap.get (users g') roomId = None /\
  (forall other, other <> roomId ->
     JSMap.get (rooms g') other = JSMap.get (rooms g) other /\
     JSMap.get (users g') other = JSMap.get (users g) other) /\
  out = [ ServerToEmit roomId "roomDeleted"
            (JObj [("message", JStr ("Room " ++ roomId ++ " has been deleted."))]);
          ServerEmit "rooms" (roomsArr (JSMap.values (rooms g')));
          ConsoleLog ("Room deleted: " ++ roomId) ].
Proof.
  intros Hwr Hwu Hroom. unfold deleteRoom. rewrite Hroom. simpl.
  repeat split.
  - now apply JSMapFacts.get_delete_eq.
  - now apply JSMapFacts.get_delete_eq.
  - apply JSMapFacts.get_delete_ne. congruence.
  - apply JSMapFacts.get_delete_ne. congruence.
Qed.

Example twoRooms_state :
  twoRooms =
  {| rooms := [ (lobbyId, Room.mk lobbyId "Lobby");
                (annexId, Room.mk annexId "Annex") ];
     users := [ (lobbyId, [ User.mk "A" "alice" lobbyId ]);
                (annexId, [ User.mk "A" "alice" annexId;
                            User.mk "B" "bob" annexId ]) ] |}.
Proof. reflexivity. Qed.

Lemma delete_clears_both_maps_witness :
  let g' := fst (deleteRoom annexId "A" twoRooms) in
  let out := snd (deleteRoom annexId "A" twoRooms) in
  JSMap.get (rooms g') annexId = None /\
  JSMap.get (users g') annexId = None /\
  (forall other, other <> annexId ->
     JSMap.get (rooms g') other = JSMap.get (rooms twoRooms) other /\
     JSMap.get (users g') other = JSMap.get (users twoRooms) other) /\
  out = [ ServerToEmit annexId "roomDeleted"
            (JObj [("message", JStr ("Room " ++ annexId ++ " has been deleted."))]);
          ServerEmit "rooms" (roomsArr (JSMap.values (rooms g')));
          ConsoleLog ("Room deleted: " ++ annexId) ].
Proof.
  apply (delete_clears_both_maps twoRooms annexId "A").
  - unfold JSMap.wf; simpl; repeat constructor; simpl; intuition discriminate.
  - unfold JSMap.wf; simpl; repeat constructor; simpl; intuition discriminate.
  - reflexivity.
Defined.

(** * The disconnect sweep *)

Lemma sweep_fold (client : string) (rest done : JSMap.t (list User.t))
  (out : list Effect) :
  JSMap.wf (done ++ rest)%list ->
  fold_left (sweepEntry client) rest ((done ++ rest)%list, out)
  = ((done ++ sweptUsers client rest)%list,
     (out ++ sweepBroadcasts client rest)%list).
Proof.
  unfold JSMap.wf, JSMap.keys.
  revert done out. induction rest as [|[k us] rest IH]; intros done out Hwf.
  - simpl. now rewrite !app_nil_r.
  - assert (Hk : ~ In k (JSMap.keys done)).
    { rewrite map_app in Hwf. simpl in Hwf.
      apply NoDup_remove_2 in Hwf. intros Hin. apply Hwf.
      apply in_or_app. now left. }
    cbn [fold_left sweepEntry sweptUsers sweepBroadcasts flat_map].
    fold (sweptUsers client rest). fold (sweepBroadcasts client rest).
    destruct (0 <? length (filter (notClient client) us))%nat.
    + rewrite JSMapFacts.set_app_notin by assumption.
      cbn [JSMap.set]. rewrite String.eqb_refl.
      change ((done ++ (k, filter (notClient client) us) :: rest)%list)
        with ((done ++ [(k, filter (notClient client) us)] ++ rest)%list).
      rewrite app_assoc, IH.
      * now rewrite <- !app_assoc.
      * rewrite <- app_assoc. rewrite !map_app in *. exact Hwf.
    + rewrite JSMapFacts.delete_app_notin by assumption.
      cbn [JSMap.delete]. rewrite String.eqb_refl.
      rewrite IH; [reflexivity|].
      rewrite map_app in *. simpl in Hwf. now apply NoDup_remove_1 in Hwf.
Qed.

Lemma handleDisconnect_spec (client : string) (g : ChatGateway) :
  JSMap.wf (users g) ->
  handleDisconnect client g
  = ({| rooms := rooms g; users := sweptUsers client (users g) |},
     ConsoleLog ("Client disconnected: " ++ client)
       :: sweepBroadcasts client (users g)).
Proof.
  intros Hwf. unfold handleDisconnect.
  rewrite (sweep_fold client (users g) [] _ Hwf). reflexivity.
Qed.

Lemma keys_sweptUsers (client : string) (m : JSMap.t (list User.t)) (k : string) :
  In k (JSMap.keys (sweptUsers client m)) -> In k (JSMap.keys m).
Proof.
  induction m as [|[k' us] m IH]; simpl; [tauto|].
  destruct (0 <? length (filter (notClient client) us))%nat; simpl.
  - intros [H|H]; [now left | right; now apply IH].
  - intros H. right. now apply IH.
Qed.

Lemma get_sweptUsers (client : string) (m : JSMap.t (list User.t)) (k : string) :
  JSMap.wf m ->
  JSMap.get (sweptUsers client m) k
  = match JSMap.get m k with
    | Some us =>
        let kept := filter (notClient client) us in
        if (0 <? length kept)%nat then Some kept else None
    | None => None
    end.
Proof.
  unfold JSMap.wf. induction m as [|[k' us] m IH]; simpl; [reflexivity|].
  intros Hnd. inversion Hnd as [|? ? Hnotin Hnd']; subst.
  destruct (String.eqb_spec k' k) as [->|Hk].
  - destruct (0 <? length (filter (notClient client) us))%nat; simpl.
    + now rewrite String.eqb_refl.
    + apply JSMapFacts.get_None_notin. intros Hin. apply Hnotin.
      now apply keys_sweptUsers in Hin.
  - destruct (0 <? length (filter (notClient client) us))%nat; simpl.
    + destruct (String.eqb_spec k' k); [contradiction | now apply IH].
    + now apply IH.
Qed.

Lemma groupBroadcasts_sweep (client : string) (m : JSMap.t (list User.t))
  (k : string) :
  JSMap.wf m ->
  groupBroadcasts k "totalUsers" (sweepBroadcasts client m)
  = match JSMap.get m k with
    | Some us =>
        let kept := filter (notClient client) us in
        if (0 <? length kept)%nat then [usersArr kept] else []
    | None => []
    end.
Proof.
  unfold JSMap.wf. induction m as [|[k' us] m IH]; simpl; [reflexivity|].
  intros Hnd. inversion Hnd as [|? ? Hnotin Hnd']; subst.
  specialize (IH Hnd').
  unfold groupBroadcasts in *. rewrite flat_map_app, IH.
  destruct (String.eqb_spec k' k) as [->|Hk].
  - apply JSMapFacts.get_None_notin in Hnotin. rewrite Hnotin.
    destruct (0 <? length (filter (notClient client) us))%nat; simpl.
    + now rewrite String.eqb_refl.
    + reflexivity.
  - destruct (0 <? length (filter (notClient client) us))%nat; simpl.
    + destruct (String.eqb_spec k' k); [contradiction | reflexivity].
    + reflexivity.
Qed.

Lemma filter_notClient_In (client : string) (us : list User.t) (user : User.t) :
  In user (filter (notClient client) us)
  <-> In user us /\ User.userId user <> client.
Proof.
  rewrite filter_In. unfold notClient.
  destruct (String.eqb_spec (User.userId user) client); simpl;
    intuition congruence.
Qed.

Lemma length_pos_iff {A} (l : list A) : (0 <? length l)%nat = true <-> l <> [].
Proof.
  destruct l; simpl; split; intros H; try reflexivity;
    try discriminate; now elim H.
Qed.

(** C7. [handleDisconnect] leaves [rooms] as it is and goes through every
    member list of [users]: the list a room keeps is the old one without the
    members of the disconnected connection, and with every other member still
    there.  When that list is not empty it is stored under the room and sent,
    once, as [totalUsers] to the room's group; when it is empty the room's
    entry is deleted from [users], nothing is sent to its group, and the room
    keeps its entry in [rooms].  A room without an entry in [users] gets
    none. *)
Theorem disconnect_sweeps_every_room (g : ChatGateway) (client : string) :
  JSMap.wf (users g) ->
  let g' := fst (handleDisconnect client g) in
  let out := snd (handleDisconnect client g) in
  rooms g' = rooms g /\
  (forall roomId us,
     JSMap.get (users g) roomId = Some us ->
     let kept := filter (notClient client) us in
     (forall user, In user kept <-> In user us /\ User.userId user <> client) /\
     (kept <> [] ->
        JSMap.get (users g') roomId = Some kept /\
        groupBroadcasts roomId "totalUsers" out = [usersArr kept]) /\
     (kept = [] ->
        JSMap.get (users g') roomId = None /\
        groupBroadcasts roomId "totalUsers" out = [] /\
        JSMap.get (rooms g') roomId = JSMap.get (rooms g) roomId)) /\
  (forall roomId,
     JSMap.get (users g) roomId = None ->
     JSMap.get (users g') roomId = None /\
     groupBroadcasts roomId "totalUsers" out = []).
Proof.
  intros Hwf. cbv zeta. rewrite handleDisconnect_spec by assumption.
  cbn [fst snd rooms users].
  change (groupBroadcasts ?k "totalUsers" (ConsoleLog ?l :: ?rest))
    with (groupBroadcasts k "totalUsers" rest).
  split; [reflexivity|]. split.
  - intros roomId us Hget. split; [|split].
    + intros user. apply filter_notClient_In.
    + intros Hkept. apply length_pos_iff in Hkept.
      rewrite get_sweptUsers, groupBroadcasts_sweep by assumption.
      rewrite Hget. cbv zeta. now rewrite Hkept.
    + intros Hkept.
      rewrite get_sweptUsers, groupBroadcasts_sweep by assumption.
      rewrite Hget. cbv zeta. rewrite Hkept. simpl. auto.
  - intros roomId Hget.
    rewrite get_sweptUsers, groupBroadcasts_sweep by assumption.
    now rewrite Hget.
Qed.

Lemma disconnect_sweeps_every_room_witness :
  let g' := fst (handleDisconnect "A" twoRooms) in
  let out := snd (handleDisconnect "A" twoRooms) in
  rooms g' = rooms twoRooms /\
  (forall roomId us,
     JSMap.get (users twoRooms) roomId = Some us ->
     let kept := filter (notClient "A") us in
     (forall user, In user kept <-> In user us /\ User.userId user <> "A") /\
     (kept <> [] ->
        JSMap.get (users g') roomId = Some kept /\
        groupBroadcasts roomId "totalUsers" out = [usersArr kept]) /\
     (kept = [] ->
        JSMap.get (users g') roomId = None /\
        groupBroadcasts roomId "totalUsers" out = [] /\
        JSMap.get (rooms g') roomId = JSMap.get (rooms twoRooms) roomId)) /\
  (forall roomId,
     JSMap.get (users twoRooms) roomId = None ->
     JSMap.get (users g') roomId = None /\
     groupBroadcasts roomId "totalUsers" out = []).
Proof.
  apply (disconnect_sweeps_every_room twoRooms "A").
  unfold JSMap.wf; simpl; repeat constructor; simpl; intuition discriminate.
Defined.

(** The sweep of [twoRooms] for [A], evaluated: the first room loses its
    entry in [users] and stays in [rooms]; the second keeps [B] alone. *)
Example disconnect_twoRooms :
  handleDisconnect "A" twoRooms
  = ({| rooms := rooms twoRooms;
        users := [ (annexId, [ User.mk "B" "bob" annexId ]) ] |},
     [ ConsoleLog "Client disconnected: A";
       ServerToEmit annexId "totalUsers" (usersArr [ User.mk "B" "bob" annexId ]) ]).
Proof. reflexivity. Qed.

(** * Invariants of the reachable states *)

Section SweepInvariant.
Variable client : string.
Variable R : list User.t -> Prop.
Variable Q : JSMap.t (list User.t) -> Prop.
Hypothesis Q_set :
  forall m k us, R us -> Q m -> Q (JSMap.set m k (filter (notClient client) us)).
Hypothesis Q_delete : forall m k, Q m -> Q (JSMap.delete m k).

(** A property of [users] that survives storing the filtered copy of a
    visited list and deleting an entry survives the loop of
    [handleDisconnect]. *)
Lemma sweep_fold_preserves (entries : list (string * list User.t))
  (acc : JSMap.t (list User.t)) (out : list Effect) :
  (forall k us, In (k, us) entries -> R us) ->
  Q acc -> Q (fst (fold_left (sweepEntry client) entries (acc, out))).
Proof.
  revert acc out. induction entries as [|[k us] entries IH];
    intros acc out Hentries Hacc.
  - exact Hacc.
  - cbn [fold_left sweepEntry].
    assert (Hus : R us) by (apply (Hentries k); now left).
    assert (Hrest : forall k' us', In (k', us') entries -> R us')
      by (intros k' us' Hin; apply (Hentries k'); now right).
    destruct (0 <? length (filter (notClient client) us))%nat; apply IH; auto.
Qed.
End SweepInvariant.

Lemma handleDisconnect_users (client : string) (g : ChatGateway) :
  users (fst (handleDisconnect client g))
  = fst (fold_left (sweepEntry client) (users g)
           (users g, [ConsoleLog ("Client disconnected: " ++ client)])).
Proof.
  unfold handleDisconnect.
  now destruct (fold_left (sweepEntry client) (users g) _).
Qed.

Lemma handleDisconnect_rooms (client : string) (g : ChatGateway) :
  rooms (fst (handleDisconnect client g)) = rooms g.
Proof.
  unfold handleDisconnect.
  now destruct (fold_left (sweepEntry client) (users g) _).
Qed.

Lemma handle_wf (client : string) (req : Request) (g : ChatGateway) :
  wfGateway g -> wfGateway (fst (handle client req g)).
Proof.
  intros [Hr Hu]. unfold wfGateway.
  destruct req as [roomName now|userName roomId|roomId|data|roomId userName| |];
    cbn [handle].
  - split; [now apply JSMapFacts.wf_set | assumption].
  - unfold joinRoom.
    destruct (negb (JSMap.has (rooms g) roomId)); [now split|].
    destruct (existsb _ _); [now split|].
    split; [assumption | now apply JSMapFacts.wf_set].
  - unfold deleteRoom.
    destruct (negb (JSMap.has (rooms g) roomId)); [now split|].
    split; now apply JSMapFacts.wf_delete.
  - unfold sendMessage.
    destruct (negb (JSMap.has (rooms g) _)); now split.
  - unfold leaveRoom.
    destruct (negb (JSMap.has (rooms g) roomId)); [now split|].
    split; [assumption | now apply JSMapFacts.wf_set].
  - rewrite handleDisconnect_rooms, handleDisconnect_users.
    split; [assumption|].
    apply (sweep_fold_preserves client (fun _ => True) JSMap.wf); auto.
    + intros; now apply JSMapFacts.wf_set.
    + intros; now apply JSMapFacts.wf_delete.
  - now split.
Qed.

Lemma reachable_wf (g : ChatGateway) : reachable g -> wfGateway g.
Proof.
  induction 1 as [|g client req _ IH].
  - split; constructor.
  - now apply handle_wf.
Qed.

Lemma userNames_filter_NoDup (keep : User.t -> bool) (us : list User.t) :
  NoDup (map User.userName us) ->
  NoDup (map User.userName (filter keep us)).
Proof.
  induction us as [|u us IH]; simpl; intros Hnd; [constructor|].
  inversion Hnd as [|? ? Hnotin Hnd']; subst.
  destruct (keep u); simpl; [|now apply IH].
  constructor; [|now apply IH].
  intros Hin. apply Hnotin. apply in_map_iff in Hin.
  destruct Hin as [u' [Hname Hin]]. apply filter_In in Hin.
  apply in_map_iff. exists u'. tauto.
Qed.

Lemma existsb_name_false (userName : string) (us : list User.t) :
  existsb (fun user => String.eqb (User.userName user) userName) us = false ->
  ~ In userName (map User.userName us).
Proof.
  induction us as [|u us IH]; simpl; [tauto|].
  destruct (String.eqb_spec (User.userName u) userName); simpl; [discriminate|].
  intros H [Heq|Hin]; [contradiction | now apply IH].
Qed.

Lemma NoDup_snoc {A} (l : list A) (x : A) :
  NoDup l -> ~ In x l -> NoDup (l ++ [x])%list.
Proof.
  intros Hnd Hnotin. apply NoDup_app.
  - assumption.
  - constructor; [simpl; tauto | constructor].
  - intros y Hy [<-|[]]. contradiction.
Qed.

Lemma uniqueNames_usersOrEmpty (g : ChatGateway) (roomId : string) :
  uniqueNames g -> NoDup (map User.userName (usersOrEmpty g roomId)).
Proof.
  intros Hinv. unfold usersOrEmpty.
  destruct (JSMap.get (users g) roomId) as [us|] eqn:Hget; [|constructor].
  apply (Hinv roomId). now apply JSMapFacts.get_Some_In.
Qed.

Lemma handle_uniqueNames (client : string) (req : Request) (g : ChatGateway) :
  uniqueNames g -> uniqueNames (fst (handle client req g)).
Proof.
  intros Hinv.
  destruct req as [roomName now|userName roomId|roomId|data|roomId userName| |];
    cbn [handle].
  - exact Hinv.
  - unfold joinRoom.
    destruct (negb (JSMap.has (rooms g) roomId)); [exact Hinv|].
    destruct (existsb _ _) eqn:Hname; [exact Hinv|].
    intros k us Hin. cbn [fst users] in Hin.
    apply JSMapFacts.In_set in Hin. destruct Hin as [[= -> ->]|Hin].
    + rewrite map_app. apply NoDup_snoc.
      * now apply uniqueNames_usersOrEmpty.
      * now apply existsb_name_false.
    + now apply (Hinv k).
  - unfold deleteRoom.
    destruct (negb (JSMap.has (rooms g) roomId)); [exact Hinv|].
    intros k us Hin. cbn [fst users] in Hin.
    apply JSMapFacts.In_delete in Hin. now apply (Hinv k).
  - unfold sendMessage.
    destruct (negb (JSMap.has (rooms g) _)); exact Hinv.
  - unfold leaveRoom.
    destruct (negb (JSMap.has (rooms g) roomId)); [exact Hinv|].
    intros k us Hin. cbn [fst users] in Hin.
    apply JSMapFacts.In_set in Hin. destruct Hin as [[= -> ->]|Hin].
    + apply userNames_filter_NoDup. now apply uniqueNames_usersOrEmpty.
    + now apply (Hinv k).
  - unfold uniqueNames. rewrite handleDisconnect_users.
    apply (sweep_fold_preserves client
             (fun us => NoDup (map User.userName us))
             (fun m => forall k us, In (k, us) m -> NoDup (map User.userName us))).
    + intros m k us Hus Hm k' us' Hin.
      apply JSMapFacts.In_set in Hin. destruct Hin as [[= -> ->]|Hin].
      * now apply userNames_filter_NoDup.
      * now apply (Hm k').
    + intros m k Hm k' us' Hin.
      apply JSMapFacts.In_delete in Hin. now apply (Hm k').
    + exact Hinv.
    + exact Hinv.
  - exact Hinv.
Qed.

Lemma reachable_uniqueNames (g : ChatGateway) : reachable g -> uniqueNames g.
Proof.
  induction 1 as [|g client req _ IH].
  - intros roomId us [].
  - now apply handle_uniqueNames.
Qed.

(** C3. In every state the handlers reach from the freshly constructed
    gateway, by any sequence of requests of any connections, the display
    names in the member list of a room are pairwise distinct. *)
Theorem reachable_display_names_distinct
  (g : ChatGateway) (roomId : string) (us : list User.t) :
  reachable g ->
  JSMap.get (users g) roomId = Some us ->
  NoDup (map User.userName us).
Proof.
  intros Hreach Hget.
  apply (reachable_uniqueNames g Hreach roomId).
  now apply JSMapFacts.get_Some_In.
Qed.

Lemma reachable_display_names_distinct_witness :
  NoDup (map User.userName
           [ User.mk "A" "alice" lobbyId; User.mk "B" "bob" lobbyId;
             User.mk "A" "al" lobbyId ]).
Proof.
  apply (reachable_display_names_distinct lobby lobbyId).
  - apply run_reachable, reachable_init.
  - reflexivity.
Defined.

(** * Room identities *)

Example numberToString_epoch : numberToString 0 = "0".
Proof. reflexivity. Qed.

Example numberToString_now : numberToString 1700000000000 = "1700000000000".
Proof. reflexivity. Qed.

Example numberToString_before_epoch : numberToString (-42) = "-42".
Proof. reflexivity. Qed.

Lemma numberToString_inj (a b : Z) : numberToString a = numberToString b -> a = b.
Proof.
  unfold numberToString. intros H.
  apply (f_equal NilEmpty.int_of_string) in H.
  rewrite !NilEmpty.isi in H. injection H as H.
  now apply DecimalZ.to_int_inj.
Qed.

Lemma newRoomId_inj (a b : Z) : newRoomId a = newRoomId b -> a = b.
Proof.
  unfold newRoomId. simpl. intros [= H]. now apply numberToString_inj.
Qed.

Lemma createdRoomIds_app (out1 out2 : list Effect) :
  createdRoomIds (out1 ++ out2)%list
  = (createdRoomIds out1 ++ createdRoomIds out2)%list.
Proof. apply flat_map_app. Qed.

Lemma createdRoomIds_sweep (client : string) (entries : list (string * list User.t))
  (acc : JSMap.t (list User.t)) (out : list Effect) :
  createdRoomIds (snd (fold_left (sweepEntry client) entries (acc, out)))
  = createdRoomIds out.
Proof.
  revert acc out. induction entries as [|[k us] entries IH]; intros acc out.
  - reflexivity.
  - cbn [fold_left sweepEntry].
    destruct (0 <? length (filter (notClient client) us))%nat; rewrite IH.
    + rewrite createdRoomIds_app. simpl. apply app_nil_r.
    + reflexivity.
Qed.

Lemma createdRoomIds_handle (client : string) (req : Request) (g : ChatGateway) :
  createdRoomIds (snd (handle client req g))
  = match req with
    | CreateRoom _ now => [newRoomId now]
    | _ => []
    end.
Proof.
  destruct req as [roomName now|userName roomId|roomId|data|roomId userName| |];
    cbn [handle].
  - reflexivity.
  - unfold joinRoom.
    destruct (negb (JSMap.has (rooms g) roomId)); [reflexivity|].
    destruct (existsb _ _); reflexivity.
  - unfold deleteRoom.
    destruct (negb (JSMap.has (rooms g) roomId)); reflexivity.
  - unfold sendMessage.
    destruct (negb (JSMap.has (rooms g) _)); reflexivity.
  - unfold leaveRoom.
    destruct (negb (JSMap.has (rooms g) roomId)); reflexivity.
  - unfold handleDisconnect.
    pose proof (createdRoomIds_sweep client (users g) (users g)
                  [ConsoleLog ("Client disconnected: " ++ client)]) as H.
    destruct (fold_left (sweepEntry client) (users g) _) as [users' out].
    exact H.
  - reflexivity.
Qed.

Lemma run_cons_snd (client : string) (req : Request)
  (rest : list (string * Request)) (g : ChatGateway) :
  snd (run ((client, req) :: rest) g)
  = (snd (handle client req g) ++ snd (run rest (fst (handle client req g))))%list.
Proof.
  simpl. destruct (handle client req g) as [g1 out1].
  simpl. now destruct (run rest g1).
Qed.

Lemma createdRoomIds_run (reqs : list (string * Request)) (g : ChatGateway) :
  createdRoomIds (snd (run reqs g)) = map newRoomId (clockReadings reqs).
Proof.
  revert g. induction reqs as [|[client req] rest IH]; intros g.
  - reflexivity.
  - rewrite run_cons_snd, createdRoomIds_app, createdRoomIds_handle, IH.
    cbn [clockReadings flat_map]. fold (clockReadings rest).
    rewrite map_app. now destruct req.
Qed.

(** C1, as the code has it. The room identity is "room" followed by the
    clock reading in decimal. Over any run of requests, from any state, the
    identities handed out are those of the clock readings taken, in order;
    so when the readings of the [createRoom] calls are pairwise distinct, so
    are the identities handed out. *)
Theorem room_ids_distinct_when_clock_readings_distinct
  (reqs : list (string * Request)) (g : ChatGateway) :
  NoDup (clockReadings reqs) ->
  createdRoomIds (snd (run reqs g)) = map newRoomId (clockReadings reqs) /\
  NoDup (createdRoomIds (snd (run reqs g))).
Proof.
  intros Hnd. rewrite createdRoomIds_run. split; [reflexivity|].
  apply Finite.Injective_map_NoDup; [exact newRoomId_inj | assumption].
Qed.

Lemma room_ids_distinct_when_clock_readings_distinct_witness :
  createdRoomIds (snd (run twoRoomsHistory constructor))
  = map newRoomId (clockReadings twoRoomsHistory) /\
  NoDup (createdRoomIds (snd (run twoRoomsHistory constructor))).
Proof.
  apply (room_ids_distinct_when_clock_readings_distinct twoRoomsHistory constructor).
  simpl. repeat constructor; simpl; intuition discriminate.
Defined.

(** C1, as stated, fails: two [createRoom] calls that read the same clock
    value get the same room identity, and the second room takes the place of
    the first in [rooms]. *)
Lemma same_millisecond_same_room_id :
  createdRoomIds (snd (run sameMillisecond constructor)) = [ lobbyId; lobbyId ] /\
  ~ NoDup (createdRoomIds (snd (run sameMillisecond constructor))) /\
  rooms (fst (run sameMillisecond constructor))
  = [ (lobbyId, Room.mk lobbyId "Annex") ].
Proof.
  split; [reflexivity|]. split; [|reflexivity].
  change (createdRoomIds (snd (run sameMillisecond constructor)))
    with [ lobbyId; lobbyId ].
  intros Hnd. inversion Hnd as [|? ? Hnotin _]; subst.
  apply Hnotin. now left.
Qed.

(** * Further facts about [JSMap] *)

Module JSMapMore.
Import JSMap.
Local Open Scope list_scope.
Section More.
Context {V : Type}.
Implicit Types (m : JSMap.t V) (k : string) (v : V).

Lemma set_absent m k v : get m k = None -> set m k v = m ++ [(k, v)].
Proof.
  induction m as [|[k' v'] m IH]; simpl; [reflexivity|].
  destruct (String.eqb k' k); [discriminate|].
  intros H. now rewrite IH.
Qed.

Lemma keys_set_present m k v : has m k = true -> keys (set m k v) = keys m.
Proof.
  unfold has. induction m as [|[k' v'] m IH]; simpl; [discriminate|].
  destruct (String.eqb_spec k' k) as [->|Hk]; simpl; [reflexivity|].
  intros H. now rewrite IH.
Qed.

Lemma set_set m k v v0 : set (set m k v) k v0 = set m k v0.
Proof.
  induction m as [|[k' v'] m IH]; simpl.
  - now rewrite String.eqb_refl.
  - destruct (String.eqb k' k) eqn:E; simpl.
    + now rewrite String.eqb_refl.
    + now rewrite E, IH.
Qed.

Lemma keys_delete_ne m k k0 :
  k0 <> k -> In k0 (keys m) -> In k0 (keys (delete m k)).
Proof.
  intros Hne. induction m as [|[k' v'] m IH]; simpl; [tauto|].
  destruct (String.eqb_spec k' k) as [->|Hk]; simpl.
  - intros [H|H]; [congruence | assumption].
  - intros [H|H]; [now left | right; now apply IH].
Qed.

Lemma keys_delete_gone m k : wf m -> ~ In k (keys (delete m k)).
Proof.
  intros Hwf. apply JSMapFacts.get_None_notin.
  now apply JSMapFacts.get_delete_eq.
Qed.

Lemma has_true_In m k : has m k = true <-> In k (keys m).
Proof.
  unfold has. destruct (get m k) eqn:E.
  - split; [intros _|reflexivity].
    apply JSMapFacts.get_Some_In in E. now apply (in_map fst) in E.
  - apply JSMapFacts.get_None_notin in E. split; [discriminate | contradiction].
Qed.

Lemma has_false_get m k : has m k = false <-> get m k = None.
Proof. unfold has. destruct (get m k); split; congruence. Qed.
End More.
End JSMapMore.

(** * Creating a room *)

(** X1. [createRoom] under an identity that [rooms] does not hold yet: the room is
    appended after the rooms already there, the list sent to every client as
    [rooms] is the old list followed by the new room, the creator's socket
    joins the room's group, and [users] is not touched. *)
Theorem create_appends_new_room
  (g : ChatGateway) (roomName client : string) (now : Z) :
  JSMap.has (rooms g) (newRoomId now) = false ->
  let room := Room.mk (newRoomId now) roomName in
  let g' := fst (createRoom roomName client now g) in
  let out := snd (createRoom roomName client now g) in
  rooms g' = (rooms g ++ [(newRoomId now, room)])%list /\
  users g' = users g /\
  emits out
  = [ ClientEmit client "roomCreated" (roomObj room);
      ServerEmit "rooms"
        (roomsArr (JSMap.values (rooms g) ++ [room])%list) ] /\
  In (ClientJoin client (newRoomId now)) out.
Proof.
  intros Hnew. apply JSMapMore.has_false_get in Hnew.
  unfold createRoom. cbn [fst snd rooms users].
  rewrite (JSMapMore.set_absent _ _ _ Hnew).
  repeat split.
  - unfold emits, JSMap.values. simpl. now rewrite map_app.
  - now left.
Qed.

Lemma create_appends_new_room_witness :
  let room := Room.mk (newRoomId 1700000000002) "Attic" in
  let g' := fst (createRoom "Attic" "C" 1700000000002 twoRooms) in
  let out := snd (createRoom "Attic" "C" 1700000000002 twoRooms) in
  rooms g' = (rooms twoRooms ++ [(newRoomId 1700000000002, room)])%list /\
  users g' = users twoRooms /\
  emits out
  = [ ClientEmit "C" "roomCreated" (roomObj room);
      ServerEmit "rooms"
        (roomsArr (JSMap.values (rooms twoRooms) ++ [room])%list) ] /\
  In (ClientJoin "C" (newRoomId 1700000000002)) out.
Proof.
  apply (create_appends_new_room twoRooms "Attic" "C" 1700000000002).
  reflexivity.
Defined.

(** X2. [createRoom] under an identity that [rooms] already holds (a second call
    within the same millisecond): no room is added, the rooms keep their
    order, the entry under that identity now carries the new name, and the
    member list stored under the identity stays: the new room starts with the
    members of the room it replaced. *)
Theorem create_on_taken_id_replaces_room
  (g : ChatGateway) (roomName client : string) (now : Z) :
  JSMap.has (rooms g) (newRoomId now) = true ->
  let g' := fst (createRoom roomName client now g) in
  JSMap.keys (rooms g') = JSMap.keys (rooms g) /\
  JSMap.get (rooms g') (newRoomId now) = Some (Room.mk (newRoomId now) roomName) /\
  (forall other, other <> newRoomId now ->
     JSMap.get (rooms g') other = JSMap.get (rooms g) other) /\
  usersOrEmpty g' (newRoomId now) = usersOrEmpty g (newRoomId now).
Proof.
  intros Htaken. unfold createRoom. cbn [fst rooms users]. repeat split.
  - now apply JSMapMore.keys_set_present.
  - apply JSMapFacts.get_set_eq.
  - intros other Hne. apply JSMapFacts.get_set_ne. congruence.
Qed.

Lemma create_on_taken_id_replaces_room_witness :
  let g' := fst (createRoom "Cellar" "C" 1700000000001 twoRooms) in
  JSMap.keys (rooms g') = JSMap.keys (rooms twoRooms) /\
  JSMap.get (rooms g') (newRoomId 1700000000001)
  = Some (Room.mk (newRoomId 1700000000001) "Cellar") /\
  (forall other, other <> newRoomId 1700000000001 ->
     JSMap.get (rooms g') other = JSMap.get (rooms twoRooms) other) /\
  usersOrEmpty g' (newRoomId 1700000000001)
  = usersOrEmpty twoRooms (newRoomId 1700000000001).
Proof.
  apply (create_on_taken_id_replaces_room twoRooms "Cellar" "C" 1700000000001).
  reflexivity.
Defined.

(** * Which handler writes which map *)

(** X3. [rooms] is written by [createRoom] and [deleteRoom] only, and [users] by
    [joinRoom], [leaveRoom], [deleteRoom] and [handleDisconnect] only: every
    other request returns the map as it received it. *)
Theorem maps_written_by_their_handlers_only
  (g : ChatGateway) (client : string) (req : Request) :
  let g' := fst (handle client req g) in
  match req with
  | CreateRoom _ _ => users g' = users g
  | DeleteRoom _ => True
  | JoinRoom _ _ | LeaveRoom _ _ | Disconnect => rooms g' = rooms g
  | SendMessage _ | FetchRooms => g' = g
  end.
Proof.
  destruct req as [roomName now|userName roomId|roomId|data|roomId userName| |];
    cbn [handle].
  - reflexivity.
  - unfold joinRoom.
    destruct (negb (JSMap.has (rooms g) roomId)); [reflexivity|].
    destruct (existsb _ _); reflexivity.
  - exact I.
  - unfold sendMessage.
    destruct (negb (JSMap.has (rooms g) _)); reflexivity.
  - unfold leaveRoom.
    destruct (negb (JSMap.has (rooms g) roomId)); reflexivity.
  - apply handleDisconnect_rooms.
  - reflexivity.
Qed.

(** * Joining, once more *)

Lemma joinRoom_success_full (g : ChatGateway) (userName roomId client : string) :
  JSMap.has (rooms g) roomId = true ->
  nameInRoom g roomId userName = false ->
  joinRoom userName roomId client g
  = (let usersInRoom :=
       (usersOrEmpty g roomId ++ [User.mk client userName roomId])%list in
     ({| rooms := rooms g; users := JSMap.set (users g) roomId usersInRoom |},
      [ ClientJoin client roomId;
        ClientEmit client "joinedRoom" (JStr ("Successfully joined room: " ++ roomId));
        ClientToEmit client roomId "userJoined" (JStr (userName ++ " has joined the room"));
        ServerToEmit roomId "totalUsers" (usersArr usersInRoom);
        ConsoleLog ("User " ++ userName ++ " (" ++ client ++ ") joined room " ++ roomId) ])).
Proof.
  intros Hroom Hname. unfold joinRoom. rewrite Hroom. simpl.
  unfold nameInRoom in Hname. now rewrite Hname.
Qed.

(** X4. A successful [joinRoom] puts the new member at the end of the room's
    list, behind the members already there and in their order, and leaves the
    list of every other room alone.  The [totalUsers] list sent to the room's
    group is the list with the new member in it (where [leaveRoom] sends the
    list from before its change), and the [userJoined] notice goes to the
    group without the joiner. *)
Theorem join_appends_and_broadcasts_new_list
  (g : ChatGateway) (userName roomId client : string) :
  JSMap.has (rooms g) roomId = true ->
  nameInRoom g roomId userName = false ->
  let g' := fst (joinRoom userName roomId client g) in
  let out := snd (joinRoom userName roomId client g) in
  let after := (usersOrEmpty g roomId ++ [User.mk client userName roomId])%list in
  usersOrEmpty g' roomId = after /\
  (forall other, other <> roomId ->
     JSMap.get (users g') other = JSMap.get (users g) other) /\
  groupBroadcasts roomId "totalUsers" out = [usersArr after] /\
  emits out
  = [ ClientEmit client "joinedRoom" (JStr ("Successfully joined room: " ++ roomId));
      ClientToEmit client roomId "userJoined" (JStr (userName ++ " has joined the room"));
      ServerToEmit roomId "totalUsers" (usersArr after) ].
Proof.
  intros Hroom Hname. cbv zeta.
  rewrite joinRoom_success_full by assumption. cbn [fst snd].
  repeat split.
  - apply usersOrEmpty_set.
  - intros other Hne. cbn [users]. apply JSMapFacts.get_set_ne. congruence.
  - unfold groupBroadcasts. simpl. rewrite String.eqb_refl. reflexivity.
Qed.

Lemma join_appends_and_broadcasts_new_list_witness :
  let g' := fst (joinRoom "carol" annexId "C" twoRooms) in
  let out := snd (joinRoom "carol" annexId "C" twoRooms) in
  let after := (usersOrEmpty twoRooms annexId ++ [User.mk "C" "carol" annexId])%list in
  usersOrEmpty g' annexId = after /\
  (forall other, other <> annexId ->
     JSMap.get (users g') other = JSMap.get (users twoRooms) other) /\
  groupBroadcasts annexId "totalUsers" out = [usersArr after] /\
  emits out
  = [ ClientEmit "C" "joinedRoom" (JStr ("Successfully joined room: " ++ annexId));
      ClientToEmit "C" annexId "userJoined" (JStr ("carol" ++ " has joined the room"));
      ServerToEmit annexId "totalUsers" (usersArr after) ].
Proof.
  apply (join_appends_and_broadcasts_new_list twoRooms "carol" annexId "C");
    reflexivity.
Defined.

(** * Leaving, once more *)

Lemma filter_notClient_absent (client : string) (us : list User.t) :
  entriesOf client us = 0 -> filter (notClient client) us = us.
Proof.
  unfold entriesOf, notClient. induction us as [|u us IH]; simpl; [reflexivity|].
  destruct (String.eqb (User.userId u) client); simpl; [discriminate|].
  intros H. now rewrite IH.
Qed.

Lemma filter_notClient_twice (client : string) (us : list User.t) :
  filter (notClient client) (filter (notClient client) us)
  = filter (notClient client) us.
Proof.
  induction us as [|u us IH]; simpl; [reflexivity|].
  destruct (notClient client u) eqn:E; simpl; [|exact IH].
  now rewrite E, IH.
Qed.

(** X5. [leaveRoom] does not ask whether the requester is in the room.  From a
    connection with no entry in the room of [rooms] it names, the member list
    stays what it was, and yet the group is told that [userName] has left and
    is sent the list; and the room has an entry in [users] afterwards, an
    empty one when it had none or an empty one before. *)
Theorem leave_by_stranger_still_notifies
  (g : ChatGateway) (roomId userName client : string) :
  JSMap.has (rooms g) roomId = true ->
  entriesOf client (usersOrEmpty g roomId) = 0 ->
  let g' := fst (leaveRoom roomId userName client g) in
  let out := snd (leaveRoom roomId userName client g) in
  JSMap.get (users g') roomId = Some (usersOrEmpty g roomId) /\
  emits out
  = [ ClientToEmit client roomId "userLeft" (JStr (userName ++ " has left the room"));
      ServerToEmit roomId "totalUsers" (usersArr (usersOrEmpty g roomId)) ].
Proof.
  intros Hroom Habsent. cbv zeta.
  rewrite leaveRoom_success by assumption. cbn [fst snd users].
  rewrite JSMapFacts.get_set_eq, filter_notClient_absent by assumption.
  now split.
Qed.

Lemma leave_by_stranger_still_notifies_witness :
  let g' := fst (leaveRoom lobbyId "mallory" "B" twoRooms) in
  let out := snd (leaveRoom lobbyId "mallory" "B" twoRooms) in
  JSMap.get (users g') lobbyId = Some (usersOrEmpty twoRooms lobbyId) /\
  emits out
  = [ ClientToEmit "B" lobbyId "userLeft" (JStr ("mallory" ++ " has left the room"));
      ServerToEmit lobbyId "totalUsers" (usersArr (usersOrEmpty twoRooms lobbyId)) ].
Proof.
  apply (leave_by_stranger_still_notifies twoRooms lobbyId "mallory" "B");
    reflexivity.
Defined.

(** X6. Leaving twice is leaving once, as far as the gateway's state goes, under
    whatever names the two calls give: the second call finds no entry of the
    connection left to remove. *)
Theorem leave_twice_is_leave_once
  (g : ChatGateway) (roomId name1 name2 client : string) :
  fst (leaveRoom roomId name2 client (fst (leaveRoom roomId name1 client g)))
  = fst (leaveRoom roomId name1 client g).
Proof.
  destruct (JSMap.has (rooms g) roomId) eqn:Hroom.
  - rewrite (leaveRoom_success g) by assumption. cbn [fst].
    rewrite leaveRoom_success by exact Hroom. cbn [fst rooms users].
    rewrite usersOrEmpty_set, JSMapMore.set_set, filter_notClient_twice.
    reflexivity.
  - assert (H : leaveRoom roomId name1 client g
                = (g, [ClientEmit client "error"
                         (JStr ("Room " ++ roomId ++ " does not exist"))])).
    { unfold leaveRoom. now rewrite Hroom. }
    rewrite H. cbn [fst]. unfold leaveRoom. now rewrite Hroom.
Qed.

(** X7. The last member leaving with [leaveRoom] leaves an empty list stored under
    the room; [handleDisconnect] in the same situation deletes the entry. *)
Theorem last_leave_keeps_empty_entry
  (g : ChatGateway) (roomId userName client : string) :
  JSMap.wf (users g) ->
  JSMap.has (rooms g) roomId = true ->
  JSMap.has (users g) roomId = true ->
  filter (notClient client) (usersOrEmpty g roomId) = [] ->
  JSMap.get (users (fst (leaveRoom roomId userName client g))) roomId = Some [] /\
  JSMap.get (users (fst (handleDisconnect client g))) roomId = None.
Proof.
  intros Hwf Hroom Hentry Hempty. split.
  - rewrite leaveRoom_success by assumption. cbn [fst users].
    now rewrite JSMapFacts.get_set_eq, Hempty.
  - rewrite handleDisconnect_spec by assumption. cbn [fst users].
    rewrite get_sweptUsers by assumption.
    unfold usersOrEmpty in Hempty. unfold JSMap.has in Hentry.
    destruct (JSMap.get (users g) roomId) as [us|]; [|discriminate].
    cbv zeta. now rewrite Hempty.
Qed.

Lemma last_leave_keeps_empty_entry_witness :
  JSMap.get (users (fst (leaveRoom lobbyId "alice" "A" twoRooms))) lobbyId = Some [] /\
  JSMap.get (users (fst (handleDisconnect "A" twoRooms))) lobbyId = None.
Proof.
  apply (last_leave_keeps_empty_entry twoRooms lobbyId "alice" "A");
    try reflexivity.
  unfold JSMap.wf; simpl; repeat constructor; simpl; intuition discriminate.
Defined.

(** * More invariants of the reachable states *)

Lemma In_sweptUsers (client key : string) (kept : list User.t)
  (m : JSMap.t (list User.t)) :
  In (key, kept) (sweptUsers client m) ->
  exists us, In (key, us) m /\ kept = filter (notClient client) us /\ kept <> [].
Proof.
  induction m as [|[k us] m IH]; simpl; [tauto|].
  destruct (0 <? length (filter (notClient client) us))%nat eqn:E; simpl.
  - intros [[= <- <-]|Hin].
    + exists us. repeat split; [now left | now apply length_pos_iff].
    + destruct (IH Hin) as [us' [H1 H2]]. exists us'. split; [now right | exact H2].
  - intros Hin. destruct (IH Hin) as [us' [H1 H2]]. exists us'.
    split; [now right | exact H2].
Qed.

Lemma handle_roomsKeyed (client : string) (req : Request) (g : ChatGateway) :
  roomsKeyed g -> roomsKeyed (fst (handle client req g)).
Proof.
  intros Hinv.
  destruct req as [roomName now|userName roomId|roomId|data|roomId userName| |];
    cbn [handle].
  - intros key room Hin. cbn [createRoom fst rooms] in Hin.
    apply JSMapFacts.In_set in Hin. destruct Hin as [[= -> ->]|Hin].
    + split; [reflexivity | now exists now].
    + now apply Hinv.
  - unfold joinRoom.
    destruct (negb (JSMap.has (rooms g) roomId)); [exact Hinv|].
    destruct (existsb _ _); exact Hinv.
  - unfold deleteRoom.
    destruct (negb (JSMap.has (rooms g) roomId)); [exact Hinv|].
    intros key room Hin. cbn [fst rooms] in Hin.
    apply JSMapFacts.In_delete in Hin. now apply Hinv.
  - unfold sendMessage.
    destruct (negb (JSMap.has (rooms g) _)); exact Hinv.
  - unfold leaveRoom.
    destruct (negb (JSMap.has (rooms g) roomId)); exact Hinv.
  - unfold roomsKeyed. rewrite handleDisconnect_rooms. exact Hinv.
  - exact Hinv.
Qed.

Lemma reachable_roomsKeyed (g : ChatGateway) : reachable g -> roomsKeyed g.
Proof.
  induction 1 as [|g client req _ IH].
  - intros key room [].
  - now apply handle_roomsKeyed.
Qed.

Lemma membersFiled_usersOrEmpty (g : ChatGateway) (roomId : string) (user : User.t) :
  membersFiled g -> In user (usersOrEmpty g roomId) -> User.roomId user = roomId.
Proof.
  intros Hinv. unfold usersOrEmpty.
  destruct (JSMap.get (users g) roomId) as [us|] eqn:Hget; [|intros []].
  apply (Hinv roomId us). now apply JSMapFacts.get_Some_In.
Qed.

Lemma handle_membersFiled (client : string) (req : Request) (g : ChatGateway) :
  JSMap.wf (users g) ->
  membersFiled g -> membersFiled (fst (handle client req g)).
Proof.
  intros Hwf Hinv.
  destruct req as [roomName now|userName roomId|roomId|data|roomId userName| |];
    cbn [handle].
  - exact Hinv.
  - unfold joinRoom.
    destruct (negb (JSMap.has (rooms g) roomId)); [exact Hinv|].
    destruct (existsb _ _); [exact Hinv|].
    intros key us user Hin Huser. cbn [fst users] in Hin.
    apply JSMapFacts.In_set in Hin. destruct Hin as [[= -> ->]|Hin].
    + apply in_app_or in Huser. destruct Huser as [Hold|[<-|[]]].
      * now apply (membersFiled_usersOrEmpty g).
      * reflexivity.
    + now apply (Hinv key us).
  - unfold deleteRoom.
    destruct (negb (JSMap.has (rooms g) roomId)); [exact Hinv|].
    intros key us user Hin Huser. cbn [fst users] in Hin.
    apply JSMapFacts.In_delete in Hin. now apply (Hinv key us).
  - unfold sendMessage.
    destruct (negb (JSMap.has (rooms g) _)); exact Hinv.
  - unfold leaveRoom.
    destruct (negb (JSMap.has (rooms g) roomId)); [exact Hinv|].
    intros key us user Hin Huser. cbn [fst users] in Hin.
    apply JSMapFacts.In_set in Hin. destruct Hin as [[= -> ->]|Hin].
    + apply filter_In in Huser. now apply (membersFiled_usersOrEmpty g).
    + now apply (Hinv key us).
  - rewrite handleDisconnect_spec by assumption.
    intros key kept user Hin Huser. cbn [fst users] in Hin.
    apply In_sweptUsers in Hin. destruct Hin as [us [Hin [-> _]]].
    apply filter_In in Huser. now apply (Hinv key us).
  - exact Hinv.
Qed.

Lemma reachable_membersFiled (g : ChatGateway) : reachable g -> membersFiled g.
Proof.
  induction 1 as [|g client req Hreach IH].
  - intros key us user [].
  - apply handle_membersFiled; [|exact IH]. now apply reachable_wf.
Qed.

Lemma handle_listsHaveRooms (client : string) (req : Request) (g : ChatGateway) :
  JSMap.wf (users g) ->
  listsHaveRooms g -> listsHaveRooms (fst (handle client req g)).
Proof.
  intros Hwf Hinv.
  destruct req as [roomName now|userName roomId|roomId|data|roomId userName| |];
    cbn [handle].
  - intros key Hin. cbn [createRoom fst rooms users] in *.
    apply JSMapFacts.keys_set. right. now apply Hinv.
  - unfold joinRoom.
    destruct (JSMap.has (rooms g) roomId) eqn:Hroom; [|exact Hinv]. simpl.
    destruct (existsb _ _); [exact Hinv|].
    intros key Hin. cbn [fst rooms users] in *.
    apply JSMapFacts.keys_set in Hin. destruct Hin as [->|Hin].
    + now apply JSMapMore.has_true_In.
    + now apply Hinv.
  - unfold deleteRoom.
    destruct (negb (JSMap.has (rooms g) roomId)); [exact Hinv|].
    intros key Hin. cbn [fst rooms users] in *.
    destruct (String.eqb_spec key roomId) as [->|Hne].
    + exfalso. now apply (JSMapMore.keys_delete_gone (users g) roomId).
    + apply JSMapMore.keys_delete_ne; [assumption|].
      apply Hinv. now apply JSMapFacts.keys_delete_incl in Hin.
  - unfold sendMessage.
    destruct (negb (JSMap.has (rooms g) _)); exact Hinv.
  - unfold leaveRoom.
    destruct (JSMap.has (rooms g) roomId) eqn:Hroom; [|exact Hinv]. simpl.
    intros key Hin. cbn [fst rooms users] in *.
    apply JSMapFacts.keys_set in Hin. destruct Hin as [->|Hin].
    + now apply JSMapMore.has_true_In.
    + now apply Hinv.
  - rewrite handleDisconnect_spec by assumption.
    intros key Hin. cbn [fst rooms users] in *.
    apply Hinv. now apply keys_sweptUsers in Hin.
  - exact Hinv.
Qed.

Lemma reachable_listsHaveRooms (g : ChatGateway) : reachable g -> listsHaveRooms g.
Proof.
  induction 1 as [|g client req Hreach IH].
  - intros key [].
  - apply handle_listsHaveRooms; [|exact IH]. now apply reachable_wf.
Qed.

(** X8. In every state the handlers reach, a room is stored in [rooms] under its
    own [roomId], and that identity is "room" followed by a clock reading in
    decimal. *)
Theorem reachable_rooms_keyed_by_their_id
  (g : ChatGateway) (key : string) (room : Room.t) :
  reachable g ->
  JSMap.get (rooms g) key = Some room ->
  Room.roomId room = key /\ exists now, key = "room" ++ numberToString now.
Proof.
  intros Hreach Hget.
  apply (reachable_roomsKeyed g Hreach). now apply JSMapFacts.get_Some_In.
Qed.

Lemma reachable_rooms_keyed_by_their_id_witness :
  Room.roomId (Room.mk annexId "Annex") = annexId /\
  exists now, annexId = "room" ++ numberToString now.
Proof.
  apply (reachable_rooms_keyed_by_their_id twoRooms annexId).
  - apply run_reachable, reachable_init.
  - reflexivity.
Defined.

(** X9. In every state the handlers reach, each member of the list stored under a
    room carries that room's identity in its [roomId] field. *)
Theorem reachable_members_filed_under_their_room
  (g : ChatGateway) (roomId : string) (us : list User.t) (user : User.t) :
  reachable g ->
  JSMap.get (users g) roomId = Some us ->
  In user us ->
  User.roomId user = roomId.
Proof.
  intros Hreach Hget Hin.
  apply (reachable_membersFiled g Hreach roomId us); [|assumption].
  now apply JSMapFacts.get_Some_In.
Qed.

Lemma reachable_members_filed_under_their_room_witness :
  User.roomId (User.mk "B" "bob" annexId) = annexId.
Proof.
  apply (reachable_members_filed_under_their_room twoRooms annexId
           [ User.mk "A" "alice" annexId; User.mk "B" "bob" annexId ]).
  - apply run_reachable, reachable_init.
  - reflexivity.
  - right. now left.
Defined.

(** X10. In every state the handlers reach, a room that has a member list in
    [users] is a room of [rooms]: no member list outlives its room (while a
    room can well be without a list). *)
Theorem reachable_member_lists_have_rooms (g : ChatGateway) (roomId : string) :
  reachable g ->
  JSMap.has (users g) roomId = true ->
  JSMap.has (rooms g) roomId = true.
Proof.
  intros Hreach Hhas. apply JSMapMore.has_true_In.
  apply (reachable_listsHaveRooms g Hreach). now apply JSMapMore.has_true_In.
Qed.

Lemma reachable_member_lists_have_rooms_witness :
  JSMap.has (rooms twoRooms) annexId = true.
Proof.
  apply (reachable_member_lists_have_rooms twoRooms annexId).
  - apply run_reachable, reachable_init.
  - reflexivity.
Defined.

(** X11. A room just created under a fresh identity has no member: [createRoom]
    puts the creator's socket in the room's group but writes no member list,
    and none can be left over under an identity [rooms] did not hold. *)
Theorem created_room_has_no_member
  (g : ChatGateway) (roomName client : string) (now : Z) :
  reachable g ->
  JSMap.has (rooms g) (newRoomId now) = false ->
  let g' := fst (createRoom roomName client now g) in
  JSMap.has (rooms g') (newRoomId now) = true /\
  JSMap.get (users g') (newRoomId now) = None /\
  usersOrEmpty g' (newRoomId now) = [].
Proof.
  intros Hreach Hnew.
  assert (Hnone : JSMap.get (users g) (newRoomId now) = None).
  { destruct (JSMap.get (users g) (newRoomId now)) as [us|] eqn:E; [|reflexivity].
    exfalso. apply JSMapFacts.get_Some_In in E. apply (in_map fst) in E.
    simpl in E. apply (reachable_listsHaveRooms g Hreach) in E.
    apply (proj2 (JSMapMore.has_true_In _ _)) in E. congruence. }
  cbn [createRoom fst rooms users]. unfold usersOrEmpty. cbn [users].
  rewrite Hnone. repeat split.
  unfold JSMap.has. now rewrite JSMapFacts.get_set_eq.
Qed.

Lemma created_room_has_no_member_witness :
  let g' := fst (createRoom "Attic" "C" 1700000000002 twoRooms) in
  JSMap.has (rooms g') (newRoomId 1700000000002) = true /\
  JSMap.get (users g') (newRoomId 1700000000002) = None /\
  usersOrEmpty g' (newRoomId 1700000000002) = [].
Proof.
  apply (created_room_has_no_member twoRooms "Attic" "C" 1700000000002).
  - apply run_reachable, reachable_init.
  - reflexivity.
Defined.

(** * After a deletion *)

Lemma deleteRoom_success (g : ChatGateway) (roomId client : string) :
  JSMap.has (rooms g) roomId = true ->
  fst (deleteRoom roomId client g)
  = {| rooms := JSMap.delete (rooms g) roomId;
       users := JSMap.delete (users g) roomId |}.
Proof. intros Hroom. unfold deleteRoom. now rewrite Hroom. Qed.

(** X12. Once [deleteRoom] has deleted a room, the room is unknown to every
    handler: joining it, leaving it, sending to it and deleting it again are
    all answered with the private [error] and change nothing. *)
Theorem deleted_room_rejects_requests
  (g : ChatGateway) (roomId client : string) :
  JSMap.wf (rooms g) ->
  JSMap.has (rooms g) roomId = true ->
  let g' := fst (deleteRoom roomId client g) in
  forall (requester : string) (req : Request),
    (exists userName, req = JoinRoom userName roomId) \/
    (exists userName, req = LeaveRoom roomId userName) \/
    (exists userName message,
        req = SendMessage (GroupMessage.mk userName roomId message)) \/
    req = DeleteRoom roomId ->
    handle requester req g'
    = (g', [ClientEmit requester "error"
              (JStr ("Room " ++ roomId ++ " does not exist"))]).
Proof.
  intros Hwf Hroom g' requester req Hreq.
  assert (Hgone : JSMap.has (rooms g') roomId = false).
  { unfold g'. rewrite deleteRoom_success by assumption. cbn [rooms].
    apply JSMapMore.has_false_get. now apply JSMapFacts.get_delete_eq. }
  destruct Hreq as [[userName ->]|[[userName ->]|[[userName [message ->]]| ->]]];
    cbn [handle].
  - unfold joinRoom. now rewrite Hgone.
  - unfold leaveRoom. now rewrite Hgone.
  - unfold sendMessage. cbn [GroupMessage.roomId]. now rewrite Hgone.
  - unfold deleteRoom. now rewrite Hgone.
Qed.

Lemma deleted_room_rejects_requests_witness :
  handle "B" (JoinRoom "bob" annexId) (fst (deleteRoom annexId "A" twoRooms))
  = (fst (deleteRoom annexId "A" twoRooms),
     [ClientEmit "B" "error" (JStr ("Room " ++ annexId ++ " does not exist"))]).
Proof.
  apply (deleted_room_rejects_requests twoRooms annexId "A").
  - unfold JSMap.wf; simpl; repeat constructor; simpl; intuition discriminate.
  - reflexivity.
  - left. now exists "bob".
Defined.

Lemma In_values_delete {V} (m : JSMap.t V) (k : string) (v : V) :
  JSMap.wf m ->
  In v (JSMap.values (JSMap.delete m k)) ->
  exists k', k' <> k /\ In (k', v) m.
Proof.
  intros Hwf Hin. unfold JSMap.values in Hin. apply in_map_iff in Hin.
  destruct Hin as [[k' v'] [Hv Hin]]. simpl in Hv. subst v'.
  exists k'. split.
  - intros ->. apply (JSMapMore.keys_delete_gone m k Hwf).
    now apply (in_map fst) in Hin.
  - now apply JSMapFacts.In_delete in Hin.
Qed.

(** X13. In a state the handlers reach, the room list [deleteRoom] sends to every
    client after deleting a room holds no room with the deleted identity, and
    holds every other room of [rooms]. *)
Theorem deleted_room_absent_from_room_list
  (g : ChatGateway) (roomId client : string) :
  reachable g ->
  JSMap.has (rooms g) roomId = true ->
  exists listed,
    In (ServerEmit "rooms" (roomsArr listed)) (snd (deleteRoom roomId client g)) /\
    (forall room, In room listed -> Room.roomId room <> roomId) /\
    (forall room, In room (JSMap.values (rooms g)) ->
                  Room.roomId room <> roomId -> In room listed).
Proof.
  intros Hreach Hroom.
  exists (JSMap.values (JSMap.delete (rooms g) roomId)).
  destruct (reachable_wf g Hreach) as [Hwf _].
  pose proof (reachable_roomsKeyed g Hreach) as Hkeyed.
  split; [|split].
  - unfold deleteRoom. rewrite Hroom. simpl. right. now left.
  - intros room Hin. apply In_values_delete in Hin; [|assumption].
    destruct Hin as [k' [Hne Hin]].
    destruct (Hkeyed k' room Hin) as [-> _]. exact Hne.
  - intros room Hin Hne. unfold JSMap.values in *.
    apply in_map_iff in Hin. destruct Hin as [[k' room'] [Heq Hin]].
    simpl in Heq. subst room'.
    destruct (Hkeyed k' room Hin) as [Hk _].
    apply in_map_iff. exists (k', room). split; [reflexivity|].
    clear Hkeyed Hwf Hroom Hreach. revert Hin.
    induction (rooms g) as [|[k0 r0] m IH]; simpl; [tauto|].
    destruct (String.eqb_spec k0 roomId) as [->|Hk0]; simpl.
    + intros [[= <- <-]|Hin]; [congruence | assumption].
    + intros [H|Hin]; [now left | right; now apply IH].
Qed.

Lemma deleted_room_absent_from_room_list_witness :
  exists listed,
    In (ServerEmit "rooms" (roomsArr listed)) (snd (deleteRoom annexId "A" twoRooms)) /\
    (forall room, In room listed -> Room.roomId room <> annexId) /\
    (forall room, In room (JSMap.values (rooms twoRooms)) ->
                  Room.roomId room <> annexId -> In room listed).
Proof.
  apply (deleted_room_absent_from_room_list twoRooms annexId "A").
  - apply run_reachable, reachable_init.
  - reflexivity.
Defined.

(** * The disconnect sweep, once more *)

Lemma sweptUsers_twice (client : string) (m : JSMap.t (list User.t)) :
  sweptUsers client (sweptUsers client m) = sweptUsers client m.
Proof.
  induction m as [|[k us] m IH]; simpl; [reflexivity|].
  destruct (0 <? length (filter (notClient client) us))%nat eqn:E; simpl.
  - rewrite filter_notClient_twice, E. simpl. now rewrite IH.
  - exact IH.
Qed.

Lemma wf_sweptUsers (client : string) (m : JSMap.t (list User.t)) :
  JSMap.wf m -> JSMap.wf (sweptUsers client m).
Proof.
  unfold JSMap.wf. induction m as [|[k us] m IH]; simpl; intros Hnd; [constructor|].
  inversion Hnd as [|? ? Hnotin Hnd']; subst.
  destruct (0 <? length (filter (notClient client) us))%nat; simpl; [|now apply IH].
  constructor; [|now apply IH].
  intros Hin. apply Hnotin. now apply keys_sweptUsers in Hin.
Qed.

Lemma sweepBroadcasts_sweptUsers (client : string) (m : JSMap.t (list User.t)) :
  sweepBroadcasts client m
  = map (fun entry => ServerToEmit (fst entry) "totalUsers" (usersArr (snd entry)))
        (sweptUsers client m).
Proof.
  induction m as [|[k us] m IH]; simpl; [reflexivity|].
  destruct (0 <? length (filter (notClient client) us))%nat; simpl; now rewrite IH.
Qed.

(** X14. A second [handleDisconnect] for the same connection changes nothing more:
    the gateway after two sweeps is the gateway after one. *)
Theorem disconnect_twice_is_disconnect_once (g : ChatGateway) (client : string) :
  JSMap.wf (users g) ->
  fst (handleDisconnect client (fst (handleDisconnect client g)))
  = fst (handleDisconnect client g).
Proof.
  intros Hwf. rewrite (handleDisconnect_spec client g Hwf). cbn [fst].
  rewrite handleDisconnect_spec by (cbn [users]; now apply wf_sweptUsers).
  cbn [fst rooms users]. now rewrite sweptUsers_twice.
Qed.

Lemma disconnect_twice_is_disconnect_once_witness :
  fst (handleDisconnect "A" (fst (handleDisconnect "A" twoRooms)))
  = fst (handleDisconnect "A" twoRooms).
Proof.
  apply (disconnect_twice_is_disconnect_once twoRooms "A").
  unfold JSMap.wf; simpl; repeat constructor; simpl; intuition discriminate.
Defined.

(** X15. After [handleDisconnect], no member list of [users] holds a member of the
    disconnected connection, and no member list is empty: the sweep also
    deletes the empty lists that [leaveRoom] left behind. *)
Theorem disconnect_leaves_no_entry_and_no_empty_list
  (g : ChatGateway) (client roomId : string) (us : list User.t) :
  JSMap.wf (users g) ->
  JSMap.get (users (fst (handleDisconnect client g))) roomId = Some us ->
  us <> [] /\ entriesOf client us = 0 /\
  forall user, In user us -> User.userId user <> client.
Proof.
  intros Hwf Hget. rewrite handleDisconnect_spec in Hget by assumption.
  cbn [fst users] in Hget. apply JSMapFacts.get_Some_In in Hget.
  apply In_sweptUsers in Hget. destruct Hget as [old [_ [-> Hne]]].
  split; [assumption|].
  assert (Hall : forall user, In user (filter (notClient client) old) ->
                              User.userId user <> client).
  { intros user Hin. now apply filter_notClient_In in Hin. }
  split; [|exact Hall].
  unfold entriesOf. generalize dependent (filter (notClient client) old).
  intros l _ Hall. induction l as [|u l IH]; simpl; [reflexivity|].
  destruct (String.eqb_spec (User.userId u) client) as [E|_].
  - exfalso. apply (Hall u); [now left | exact E].
  - apply IH. intros user Hin. apply Hall. now right.
Qed.

Lemma disconnect_leaves_no_entry_and_no_empty_list_witness :
  [ User.mk "B" "bob" annexId ] <> [] /\
  entriesOf "A" [ User.mk "B" "bob" annexId ] = 0 /\
  forall user, In user [ User.mk "B" "bob" annexId ] -> User.userId user <> "A".
Proof.
  apply (disconnect_leaves_no_entry_and_no_empty_list twoRooms "A" annexId).
  - unfold JSMap.wf; simpl; repeat constructor; simpl; intuition discriminate.
  - reflexivity.
Defined.

(** X16. What [handleDisconnect] does to the outside is its console line followed
    by one [totalUsers] event per member list it leaves in [users], each to
    the group of that list's room and carrying that list, in the order of the
    map; this includes the rooms the connection was never in.  It emits
    nothing to a single socket and nothing to all. *)
Theorem disconnect_broadcasts_every_remaining_list
  (g : ChatGateway) (client : string) :
  JSMap.wf (users g) ->
  snd (handleDisconnect client g)
  = ConsoleLog ("Client disconnected: " ++ client)
      :: map (fun entry =>
                ServerToEmit (fst entry) "totalUsers" (usersArr (snd entry)))
             (users (fst (handleDisconnect client g))).
Proof.
  intros Hwf. rewrite handleDisconnect_spec by assumption.
  cbn [fst snd users]. now rewrite sweepBroadcasts_sweptUsers.
Qed.

Lemma disconnect_broadcasts_every_remaining_list_witness :
  snd (handleDisconnect "C" twoRooms)
  = ConsoleLog ("Client disconnected: " ++ "C")
      :: map (fun entry =>
                ServerToEmit (fst entry) "totalUsers" (usersArr (snd entry)))
             (users (fst (handleDisconnect "C" twoRooms))).
Proof.
  apply (disconnect_broadcasts_every_remaining_list twoRooms "C").
  unfold JSMap.wf; simpl; repeat constructor; simpl; intuition discriminate.
Defined.

(** X17. A room whose members all belonged to the disconnected connection loses
    its member list but not its place in [rooms]: the next [joinRoom] is
    accepted under any name and its requester is the room's only member. *)
Theorem emptied_room_stays_joinable
  (g : ChatGateway) (client roomId joiner userName : string) :
  JSMap.wf (users g) ->
  JSMap.has (rooms g) roomId = true ->
  filter (notClient client) (usersOrEmpty g roomId) = [] ->
  let g1 := fst (handleDisconnect client g) in
  let g2 := fst (joinRoom userName roomId joiner g1) in
  JSMap.get (users g1) roomId = None /\
  JSMap.get (users g2) roomId = Some [User.mk joiner userName roomId].
Proof.
  intros Hwf Hroom Hempty g1 g2.
  assert (Hnone : JSMap.get (users g1) roomId = None).
  { unfold g1. rewrite handleDisconnect_spec by assumption. cbn [fst users].
    rewrite get_sweptUsers by assumption. unfold usersOrEmpty in Hempty.
    destruct (JSMap.get (users g) roomId) as [us|]; [|reflexivity].
    cbv zeta. now rewrite Hempty. }
  split; [assumption|].
  assert (Hrooms : rooms g1 = rooms g) by apply handleDisconnect_rooms.
  assert (Hlist : usersOrEmpty g1 roomId = []).
  { unfold usersOrEmpty. now rewrite Hnone. }
  unfold g2. rewrite joinRoom_success.
  - cbn [users]. now rewrite JSMapFacts.get_set_eq, Hlist.
  - now rewrite Hrooms.
  - unfold nameInRoom. now rewrite Hlist.
Qed.

Lemma emptied_room_stays_joinable_witness :
  let g1 := fst (handleDisconnect "A" twoRooms) in
  let g2 := fst (joinRoom "carol" lobbyId "C" g1) in
  JSMap.get (users g1) lobbyId = None /\
  JSMap.get (users g2) lobbyId = Some [User.mk "C" "carol" lobbyId].
Proof.
  apply (emptied_room_stays_joinable twoRooms "A" lobbyId "C" "carol").
  - unfold JSMap.wf; simpl; repeat constructor; simpl; intuition discriminate.
  - reflexivity.
  - reflexivity.
Defined.

(** * What the handlers never emit *)

Lemma sweep_fold_out (client : string) (entries : list (string * list User.t))
  (acc : JSMap.t (list User.t)) (out : list Effect) :
  exists tail,
    snd (fold_left (sweepEntry client) entries (acc, out)) = (out ++ tail)%list /\
    forall e, In e tail -> exists room payload, e = ServerToEmit room "totalUsers" payload.
Proof.
  revert acc out. induction entries as [|[k us] entries IH]; intros acc out.
  - exists []. split; [simpl; now rewrite app_nil_r | intros e []].
  - cbn [fold_left sweepEntry].
    destruct (0 <? length (filter (notClient client) us))%nat.
    + destruct (IH (JSMap.set acc k (filter (notClient client) us))
                   (out ++ [ServerToEmit k "totalUsers"
                              (usersArr (filter (notClient client) us))])%list)
        as [tail [Heq Htail]].
      exists (ServerToEmit k "totalUsers" (usersArr (filter (notClient client) us))
                :: tail).
      split; [now rewrite Heq, <- app_assoc|].
      intros e [<-|Hin]; [eauto | now apply Htail].
    + apply IH.
Qed.

Lemma handleDisconnect_out (client : string) (g : ChatGateway) :
  exists tail,
    snd (handleDisconnect client g)
    = ConsoleLog ("Client disconnected: " ++ client) :: tail /\
    forall e, In e tail -> exists room payload, e = ServerToEmit room "totalUsers" payload.
Proof.
  destruct (sweep_fold_out client (users g) (users g)
              [ConsoleLog ("Client disconnected: " ++ client)]) as [tail [Heq Htail]].
  exists tail. split; [|exact Htail].
  unfold handleDisconnect.
  destruct (fold_left (sweepEntry client) (users g) _) as [users' out].
  exact Heq.
Qed.

Lemma errorEvents_broadcasts (tail : list Effect) :
  (forall e, In e tail -> exists room payload, e = ServerToEmit room "totalUsers" payload) ->
  errorEvents tail = [].
Proof.
  induction tail as [|e tail IH]; intros Hall; [reflexivity|].
  destruct (Hall e (or_introl eq_refl)) as [room [payload ->]]. simpl.
  apply IH. intros e' Hin. apply Hall. now right.
Qed.

(** X18. A handler emits an [error] event exactly when the request is one it
    rejects (a room identity [rooms] does not hold, or a join under a taken
    name): an accepted request never produces one, and the disconnect sweep,
    [createRoom] and the room listing never do. *)
Theorem error_event_exactly_when_rejected
  (g : ChatGateway) (client : string) (req : Request) :
  errorEvents (snd (handle client req g)) = [] <-> fails g req = false.
Proof.
  destruct req as [roomName now|userName roomId|roomId|data|roomId userName| |];
    cbn [handle fails].
  - simpl. tauto.
  - unfold joinRoom, nameInRoom.
    destruct (negb (JSMap.has (rooms g) roomId)); simpl;
      [split; discriminate|].
    destruct (existsb _ _); simpl; split; try discriminate; reflexivity.
  - unfold deleteRoom.
    destruct (negb (JSMap.has (rooms g) roomId)); simpl; split;
      try discriminate; reflexivity.
  - unfold sendMessage.
    destruct (negb (JSMap.has (rooms g) _)); simpl; split;
      try discriminate; reflexivity.
  - unfold leaveRoom.
    destruct (negb (JSMap.has (rooms g) roomId)); simpl; split;
      try discriminate; reflexivity.
  - destruct (handleDisconnect_out client g) as [tail [-> Htail]].
    simpl. rewrite (errorEvents_broadcasts tail Htail). tauto.
  - simpl. tauto.
Qed.

(** X19. The only socket a handler acts on is the requester's: every [join], every
    private [emit] and every [to(room)] sent from a socket in the effects of a
    request names the connection the request came from. *)
Theorem handlers_use_only_the_requesters_socket
  (g : ChatGateway) (client : string) (req : Request) (e : Effect) (other : string) :
  In e (snd (handle client req g)) ->
  socketOf e = Some other ->
  other = client.
Proof.
  assert (Hlist : forall out : list Effect,
             Forall (fun e' => forall c, socketOf e' = Some c -> c = client) out ->
             In e out -> socketOf e = Some other -> other = client).
  { intros out Hall Hin. rewrite Forall_forall in Hall. now apply Hall. }
  destruct req as [roomName now|userName roomId|roomId|data|roomId userName| |];
    cbn [handle].
  - apply Hlist. unfold createRoom. cbn [snd].
    repeat constructor; simpl; congruence.
  - apply Hlist. unfold joinRoom.
    destruct (negb (JSMap.has (rooms g) roomId));
      [cbn [snd]; repeat constructor; simpl; congruence|].
    destruct (existsb _ _); cbn [snd]; repeat constructor; simpl; congruence.
  - apply Hlist. unfold deleteRoom.
    destruct (negb (JSMap.has (rooms g) roomId)); cbn [snd];
      repeat constructor; simpl; congruence.
  - apply Hlist. unfold sendMessage.
    destruct (negb (JSMap.has (rooms g) _)); cbn [snd];
      repeat constructor; simpl; congruence.
  - apply Hlist. unfold leaveRoom.
    destruct (negb (JSMap.has (rooms g) roomId)); cbn [snd];
      repeat constructor; simpl; congruence.
  - destruct (handleDisconnect_out client g) as [tail [-> Htail]].
    intros [<-|Hin]; [discriminate|].
    destruct (Htail e Hin) as [room [payload ->]]. discriminate.
  - apply Hlist. cbn [triggerFetchAvailableRooms snd].
    repeat constructor; simpl; congruence.
Qed.

Lemma handlers_use_only_the_requesters_socket_witness : "B" = "B".
Proof.
  apply (handlers_use_only_the_requesters_socket twoRooms "B"
           (LeaveRoom annexId "bob")
           (ClientToEmit "B" annexId "userLeft" (JStr "bob has left the room")) "B").
  - left. reflexivity.
  - reflexivity.
Defined.

(** * Lists sent and lists held *)

(** X20. Whenever a handler sends a room list to every client ([rooms] after a
    creation or a deletion, [getRooms] on request), the list is the one the
    gateway holds when the handler returns, in the order of the map. *)
Theorem room_lists_sent_are_current
  (g : ChatGateway) (client : string) (req : Request)
  (event : string) (payload : JSValue) :
  In (ServerEmit event payload) (snd (handle client req g)) ->
  payload = roomsArr (JSMap.values (rooms (fst (handle client req g)))).
Proof.
  destruct req as [roomName now|userName roomId|roomId|data|roomId userName| |];
    cbn [handle].
  - cbn [createRoom fst snd rooms].
    intros [H|[H|[H|[H|[]]]]]; try discriminate. now injection H as _ <-.
  - unfold joinRoom.
    destruct (negb (JSMap.has (rooms g) roomId));
      [intros [H|[]]; discriminate|].
    destruct (existsb _ _); cbn [snd].
    + intros [H|[]]; discriminate.
    + intros [H|[H|[H|[H|[H|[]]]]]]; discriminate.
  - unfold deleteRoom.
    destruct (negb (JSMap.has (rooms g) roomId)); cbn [fst snd rooms].
    + intros [H|[]]; discriminate.
    + intros [H|[H|[H|[]]]]; try discriminate. now injection H as _ <-.
  - unfold sendMessage.
    destruct (negb (JSMap.has (rooms g) _)); cbn [snd].
    + intros [H|[]]; discriminate.
    + intros [H|[H|[]]]; discriminate.
  - unfold leaveRoom.
    destruct (negb (JSMap.has (rooms g) roomId)); cbn [snd].
    + intros [H|[]]; discriminate.
    + intros [H|[H|[H|[]]]]; discriminate.
  - destruct (handleDisconnect_out client g) as [tail [-> Htail]].
    intros [H|Hin]; [discriminate|].
    destruct (Htail _ Hin) as [room [payload' H]]. discriminate.
  - cbn [triggerFetchAvailableRooms fst snd].
    intros [H|[H|[]]]; try discriminate. now injection H as _ <-.
Qed.

Lemma room_lists_sent_are_current_witness :
  roomsArr [ Room.mk lobbyId "Lobby" ]
  = roomsArr (JSMap.values (rooms (fst (handle "A" (DeleteRoom annexId) twoRooms)))).
Proof.
  apply (room_lists_sent_are_current twoRooms "A" (DeleteRoom annexId) "rooms").
  right. left. reflexivity.
Defined.

(** X21. Apart from [leaveRoom], a handler that sends a member list to a room's
    group as [totalUsers] sends the list the gateway holds for that room when
    the handler returns. *)
Theorem member_lists_sent_are_current_except_on_leave
  (g : ChatGateway) (client : string) (req : Request)
  (room : string) (payload : JSValue) :
  JSMap.wf (users g) ->
  (forall roomId userName, req <> LeaveRoom roomId userName) ->
  In (ServerToEmit room "totalUsers" payload) (snd (handle client req g)) ->
  payload = usersArr (usersOrEmpty (fst (handle client req g)) room).
Proof.
  intros Hwf Hreq.
  destruct req as [roomName now|userName roomId|roomId|data|roomId userName| |];
    cbn [handle].
  - cbn [createRoom snd]. intros [H|[H|[H|[H|[]]]]]; discriminate.
  - unfold joinRoom.
    destruct (negb (JSMap.has (rooms g) roomId));
      [intros [H|[]]; discriminate|].
    destruct (existsb _ _); cbn [fst snd].
    + intros [H|[]]; discriminate.
    + intros [H|[H|[H|[H|[H|[]]]]]]; try discriminate.
      injection H as <- <-. now rewrite usersOrEmpty_set.
  - unfold deleteRoom.
    destruct (negb (JSMap.has (rooms g) roomId)); cbn [snd].
    + intros [H|[]]; discriminate.
    + intros [H|[H|[H|[]]]]; discriminate.
  - unfold sendMessage.
    destruct (negb (JSMap.has (rooms g) _)); cbn [snd].
    + intros [H|[]]; discriminate.
    + intros [H|[H|[]]]; discriminate.
  - now elim (Hreq roomId userName).
  - rewrite handleDisconnect_spec by assumption. cbn [fst snd].
    intros [H|Hin]; [discriminate|].
    rewrite sweepBroadcasts_sweptUsers in Hin. apply in_map_iff in Hin.
    destruct Hin as [[k kept] [Heq Hin]]. cbn [fst snd] in Heq.
    injection Heq as -> <-.
    unfold usersOrEmpty. cbn [users].
    now rewrite (JSMapFacts.In_get_Some _ _ _ (wf_sweptUsers client _ Hwf) Hin).
  - cbn [triggerFetchAvailableRooms snd]. intros [H|[H|[]]]; discriminate.
Qed.

Lemma member_lists_sent_are_current_except_on_leave_witness :
  usersArr [ User.mk "B" "bob" annexId ]
  = usersArr (usersOrEmpty (fst (handle "A" Disconnect twoRooms)) annexId).
Proof.
  apply (member_lists_sent_are_current_except_on_leave twoRooms "A" Disconnect annexId).
  - unfold JSMap.wf; simpl; repeat constructor; simpl; intuition discriminate.
  - discriminate.
  - right. left. reflexivity.
Defined.

(** X22. A display name is free again once its holder has left: if every member
    of the room under [userName] belongs to the leaving connection, then after
    its [leaveRoom] no member has the name, and a [joinRoom] under it by any
    connection is accepted. *)
Theorem name_free_after_holder_leaves
  (g : ChatGateway) (roomId userName said client joiner : string) :
  JSMap.has (rooms g) roomId = true ->
  (forall user, In user (usersOrEmpty g roomId) ->
                User.userName user = userName -> User.userId user = client) ->
  let g1 := fst (leaveRoom roomId said client g) in
  nameInRoom g1 roomId userName = false /\
  fails g1 (JoinRoom userName roomId) = false /\
  In (User.mk joiner userName roomId)
     (usersOrEmpty (fst (joinRoom userName roomId joiner g1)) roomId).
Proof.
  intros Hroom Hholder g1.
  assert (Hrooms : JSMap.has (rooms g1) roomId = true).
  { unfold g1. now rewrite leaveRoom_success. }
  assert (Hfree : nameInRoom g1 roomId userName = false).
  { unfold nameInRoom, g1. rewrite leaveRoom_success by assumption. cbn [fst].
    rewrite usersOrEmpty_set.
    destruct (existsb _ _) eqn:E; [|reflexivity].
    apply existsb_exists in E. destruct E as [user [Hin Hname]].
    apply filter_notClient_In in Hin. destruct Hin as [Hin Hid].
    apply String.eqb_eq in Hname. now elim Hid; apply Hholder. }
  split; [assumption|]. split.
  - cbn [fails]. now rewrite Hrooms, Hfree.
  - rewrite joinRoom_success by assumption. rewrite usersOrEmpty_set.
    apply in_or_app. right. now left.
Qed.

Lemma name_free_after_holder_leaves_witness :
  let g1 := fst (leaveRoom annexId "bob" "B" twoRooms) in
  nameInRoom g1 annexId "bob" = false /\
  fails g1 (JoinRoom "bob" annexId) = false /\
  In (User.mk "C" "bob" annexId)
     (usersOrEmpty (fst (joinRoom "bob" annexId "C" g1)) annexId).
Proof.
  apply (name_free_after_holder_leaves twoRooms annexId "bob" "bob" "B" "C").
  - reflexivity.
  - simpl. intros user [<-|[<-|[]]]; simpl; [discriminate | reflexivity].
Defined.
